(* ===================================================================== *)
(*  TigerTrust: scoring and loan-decision pipeline                        *)
(*                                                                        *)
(*  A shallow embedding of                                                *)
(*    rse-server/src/{scoring,tier,stripeOracle,solanaClient,features,    *)
(*                    helius,routes}.ts                                   *)
(*    loan-decision-backend/{config,server}.js, utils/loanProgram.js      *)
(*    the loan dashboard page (limit and interest-rate display)           *)
(*  and the properties the specification states about them (Part II),     *)
(*  followed by further properties read off the code (Part III).          *)
(*                                                                        *)
(*  Numbers.  JavaScript numbers that the code only ever uses as          *)
(*  integers (counts, array lengths, results of Math.floor / Math.round,  *)
(*  u64 fields of on-chain accounts) are modelled as Z; the others as     *)
(*  exact rationals Q.  IEEE-754 rounding of the double operations is     *)
(*  not modelled: every operation is the exact one.  For the products     *)
(*  that the sources round down (score * 0.8, income * 0.3, score * 0.5)  *)
(*  the exact result is compared with the binary64 one over the range of  *)
(*  trust scores and verified incomes (section "Doubles" below).  NaN     *)
(*  and Infinity are outside Q; where the source can produce NaN          *)
(*  (arithmetic on a non-numeric repayment entry) the value is an         *)
(*  option.                                                               *)
(* ===================================================================== *)

From Stdlib Require Import ZArith QArith Qround Qminmax SpecFloat.
From Stdlib Require Import String Ascii List Lia Bool DecimalString.
From Stdlib Require Import Lqa.
From stdpp Require Import base option list gmap sets.
Import ListNotations.

Open Scope Z_scope.

(* ===================================================================== *)
(*  Part I.  The program                                                  *)
(* ===================================================================== *)

(* --------------------------------------------------------------------- *)
(*  JavaScript primitives used by the sources                             *)
(* --------------------------------------------------------------------- *)
Module JS.

(** [x > y] on numbers. *)
Definition gt (x y : Q) : bool := negb (Qle_bool x y).

(** [Math.floor]. *)
Definition Math_floor (x : Q) : Z := Qfloor x.

(** [Math.round]: the nearest integer, a tie going to the larger one. *)
Definition Math_round (x : Q) : Z := Qfloor (x + (1 # 2)).

(** [Math.min] of two numbers. *)
Definition Math_min (x y : Q) : Q := Qmin x y.

(** Decimal digits of a natural number, "0" for zero. *)
Definition digits (n : Z) : string :=
  NilZero.string_of_uint (N.to_uint (Z.to_N n)).


(** The integer [n] of Number.prototype.toFixed for a non-negative [x]:
    [n / 10^f - x] is as close to zero as possible, the larger [n] on a
    tie. *)
Definition toFixed_n (f : nat) (x : Q) : Z :=
  Qfloor (x * inject_Z (10 ^ Z.of_nat f) + (1 # 2)).


(** [Number(x.toFixed(f))]: the value the fixed-point string denotes
    (again for |x| < 10^21). *)
Definition Number_toFixed (f : nat) (x : Q) : Q :=
  if Qlt_le_dec x 0
  then Qopp (inject_Z (toFixed_n f (Qopp x)) / inject_Z (10 ^ Z.of_nat f))
  else inject_Z (toFixed_n f x) / inject_Z (10 ^ Z.of_nat f).

(** Values of a parsed JSON request body (arrays and objects are not
    needed by the routes modelled here). *)
Inductive value : Type :=
| Undefined
| Null
| Bool (b : bool)
| Num (q : Q)
| Str (s : string).

(** ToBoolean. *)
Definition truthy (v : value) : bool :=
  match v with
  | Undefined | Null => false
  | Bool b => b
  | Num q => negb (Qeq_bool q 0)
  | Str s => negb (String.eqb s "")
  end.

(** A piece of a template literal: literal text, an interpolated number
    ([${x}]) or an interpolated fixed-point rendering
    ([${x.toFixed(f)}]). *)
Inductive frag : Type :=
| Lit (s : string)
| Interp (q : Q)
| Fixed (f : nat) (q : Q).

Definition template := list frag.




End JS.

(* --------------------------------------------------------------------- *)
(*  IEEE-754 binary64, for the products the sources round down            *)
(* --------------------------------------------------------------------- *)
Module Double.

Definition prec : Z := 53.
Definition emax : Z := 1024.

(** The double nearest to an integer. *)
Definition ofZ (n : Z) : spec_float := binary_normalize prec emax n 0 false.

Definition mul (x y : spec_float) : spec_float := SFmul prec emax x y.
Definition div (x y : spec_float) : spec_float := SFdiv prec emax x y.

(** The literals [0.8], [0.3] and [0.5]: the doubles nearest to 8/10,
    3/10 and 5/10, which the correctly rounded quotients are. *)
Definition lit_0_8 : spec_float := div (ofZ 8) (ofZ 10).
Definition lit_0_3 : spec_float := div (ofZ 3) (ofZ 10).
Definition lit_0_5 : spec_float := div (ofZ 5) (ofZ 10).

(** [Math.floor] of a finite double. *)
Definition floor (x : spec_float) : option Z :=
  match x with
  | S754_zero _ => Some 0
  | S754_finite s m e =>
      let v := if s then Z.neg m else Z.pos m in
      Some (if 0 <=? e then v * 2 ^ e else v / 2 ^ (- e))
  | _ => None
  end.

(** [Math.floor(n * c)] in double arithmetic, for an integer [n]. *)
Definition floorOfProduct (n : Z) (c : spec_float) : option Z :=
  floor (mul (ofZ n) c).

(** Agreement of the double computation with the exact one on the
    integers 0, ..., [bound] - 1. *)
Definition agreesBelow (c : spec_float) (q : Q) (bound : Z) : bool :=
  forallb
    (fun i =>
       match floorOfProduct (Z.of_nat i) c with
       | Some z => z =? Qfloor (inject_Z (Z.of_nat i) * q)
       | None => false
       end)
    (List.seq 0 (Z.to_nat bound)).

End Double.

(* --------------------------------------------------------------------- *)
(*  rse-server/src/types.ts                                               *)
(* --------------------------------------------------------------------- *)
Record WalletFeatures : Type := {
  txCount : Z;
  walletAgeDays : Z;
  nftCount : Z;
  tokenCount : Z;
  successfulRepayments : Z;
  defaults : Z;
  humanVerified : bool;
  hasVC : bool;
  activeDaysLast30 : option Z;
  avgTxPerActiveDay : option Q;
  activityRegularityScore : option Z
}.

(* --------------------------------------------------------------------- *)
(*  rse-server/src/scoring.ts, tier.ts                                    *)
(* --------------------------------------------------------------------- *)
Module Scoring.

(** [f.activityRegularityScore && f.activityRegularityScore > 40]:
    an absent field and 0 are falsy. *)
Definition regularityBonusApplies (a : option Z) : bool :=
  match a with
  | None => false
  | Some v => negb (v =? 0) && (v >? 40)
  end.

(** The statements of [computeTigerScore], one binding per assignment. *)
Definition computeTigerScore (f : WalletFeatures) : Z :=
  let score := 300 in
  let score := if humanVerified f then score + 80 else score in
  let score := if walletAgeDays f >? 180 then score + 40 else score in
  let score := if txCount f >? 100 then score + 40 else score in
  let score := if nftCount f >? 0 then score + 20 else score in
  let score := score + successfulRepayments f * 60 in
  let score := score - defaults f * 120 in
  let score := if hasVC f then score + 30 else score in
  let score := if score <? 0 then 0 else score in
  let score := if score >? 1000 then 1000 else score in
  let score :=
    if regularityBonusApplies (activityRegularityScore f)
    then score + 40 else score in
  score.

Definition getTier (score : Z) : string :=
  if score >=? 850 then "Platinum"
  else if score >=? 650 then "Gold"
  else if score >=? 400 then "Silver"
  else "Bronze".

(** The additive model in the words of the specification: every term,
    the activity-regularity bonus included, then one clamp. *)
Definition clamp (lo hi x : Z) : Z := Z.max lo (Z.min hi x).

Definition additiveSum (f : WalletFeatures) : Z :=
  300
  + (if humanVerified f then 80 else 0)
  + (if walletAgeDays f >? 180 then 40 else 0)
  + (if txCount f >? 100 then 40 else 0)
  + (if nftCount f >? 0 then 20 else 0)
  + successfulRepayments f * 60
  - defaults f * 120
  + (if hasVC f then 30 else 0)
  + (match activityRegularityScore f with
     | Some a => if a >? 40 then 40 else 0
     | None => 0
     end).

Definition specScore (f : WalletFeatures) : Z := clamp 0 1000 (additiveSum f).

(** The sum of the terms that precede the clamp in the source. *)
Definition sumBeforeBonus (f : WalletFeatures) : Z :=
  additiveSum f
  - (match activityRegularityScore f with
     | Some a => if a >? 40 then 40 else 0
     | None => 0
     end).

End Scoring.

(* --------------------------------------------------------------------- *)
(*  rse-server/src/stripeOracle.ts                                        *)
(* --------------------------------------------------------------------- *)
Module StripeOracle.

Record IncomeFeatures : Type := {
  incomeVerified : bool;
  incomeBracket : string;
  incomeDebtRatio : Q
}.

Definition deriveStripeIncomeFeatures (monthlyIncome debt : Q)
  : IncomeFeatures :=
  let incomeVerified := JS.gt monthlyIncome 0 in
  let incomeBracket := "low"%string in
  let incomeBracket :=
    if JS.gt monthlyIncome 2000 then "mid"%string else incomeBracket in
  let incomeBracket :=
    if JS.gt monthlyIncome 5000 then "high"%string else incomeBracket in
  let incomeDebtRatio :=
    if Qeq_bool debt 0 then monthlyIncome
    else JS.Number_toFixed 2 (monthlyIncome / debt) in
  {| incomeVerified := incomeVerified;
     incomeBracket := incomeBracket;
     incomeDebtRatio := incomeDebtRatio |}.


End StripeOracle.

(* --------------------------------------------------------------------- *)
(*  rse-server/src/solanaClient.ts                                        *)
(* --------------------------------------------------------------------- *)
Module SolanaClient.

(** An entry of [getSignaturesForAddress]; [blockTime] is in seconds
    and may be null. *)
Record SignatureInfo : Type := { blockTime : option Z }.

(** The [tokenAmount] of a parsed token account; [uiAmount] may be
    null. *)
Record TokenAmount : Type := { decimals : Z; uiAmount : option Q }.

Record TxStats : Type := { stats_txCount : Z; stats_walletAgeDays : Z }.

Record AssetStats : Type := { assets_tokenCount : Z; assets_nftCount : Z }.

Record Regularity : Type := {
  reg_activeDaysLast30 : Z;
  reg_avgTxPerActiveDay : Q;
  reg_activityRegularityScore : Z
}.

(** Truthiness of a [blockTime]: null and 0 are falsy. *)
Definition blockTimeTruthy (s : SignatureInfo) : bool :=
  match blockTime s with
  | None => false
  | Some t => negb (t =? 0)
  end.

(** [s.blockTime! * 1000], read only after the truthiness test. *)
Definition blockTimeMs (s : SignatureInfo) : Z :=
  match blockTime s with
  | None => 0
  | Some t => t * 1000
  end.

Definition DAY_MS : Z := 1000 * 60 * 60 * 24.

(** [sigs] is the response of the request with [limit: 1000], [now] the
    reading of [Date.now()]. *)
Definition getWalletTxStats (now : Z) (sigs : list SignatureInfo) : TxStats :=
  let txCount := Z.of_nat (length sigs) in
  let walletAgeDays :=
    match last sigs with
    | Some s =>
        if blockTimeTruthy s then
          let firstTime := blockTimeMs s in
          let ageMs := now - firstTime in
          ageMs / DAY_MS
        else 0
    | None => 0
    end in
  {| stats_txCount := txCount; stats_walletAgeDays := walletAgeDays |}.

Definition nftLike (amt : TokenAmount) : bool :=
  (decimals amt =? 0) &&
  match uiAmount amt with
  | Some u => Qeq_bool u 1
  | None => false
  end.

Definition getTokenAccountStats (accounts : list TokenAmount) : AssetStats :=
  let tokenCount := Z.of_nat (length accounts) in
  let nftLikeCount := Z.of_nat (length (List.filter nftLike accounts)) in
  {| assets_tokenCount := tokenCount; assets_nftCount := nftLikeCount |}.

Definition THIRTY_DAYS : Z := 30 * 24 * 60 * 60 * 1000.

(** [new Date(ms).toISOString().slice(0, 10)]: the UTC calendar date
    YYYY-MM-DD.  Two instants have the same date string exactly when
    they have the same day number since the epoch, which stands for the
    string here. *)
Definition utcDate (ms : Z) : Z := ms / DAY_MS.

Definition isRecent (now : Z) (s : SignatureInfo) : bool :=
  blockTimeTruthy s && (now - blockTimeMs s <=? THIRTY_DAYS).

Definition recentOf (now : Z) (sigs : list SignatureInfo)
  : list SignatureInfo :=
  List.filter (isRecent now) sigs.

Definition daysOf (recent : list SignatureInfo) : gset Z :=
  list_to_set (List.map (fun s => utcDate (blockTimeMs s)) recent).

(** [sigs] is the response of the request with [limit: 500]. *)
Definition getActivityRegularity (now : Z) (sigs : list SignatureInfo)
  : Regularity :=
  let recent := recentOf now sigs in
  let days := daysOf recent in
  let activeDaysLast30 := Z.of_nat (size days) in
  let avgTxPerActiveDay : Q :=
    if activeDaysLast30 =? 0 then 0%Q
    else (inject_Z (Z.of_nat (length recent)) / inject_Z activeDaysLast30)%Q in
  let activityRegularityScore :=
    JS.Math_min 100
      (inject_Z activeDaysLast30 * 3 + avgTxPerActiveDay * 10)%Q in
  {| reg_activeDaysLast30 := activeDaysLast30;
     reg_avgTxPerActiveDay := JS.Number_toFixed 2 avgTxPerActiveDay;
     reg_activityRegularityScore := JS.Math_round activityRegularityScore |}.

(** The score formula in the words of the specification, with the
    average entering after its rounding to two decimals. *)
Definition specRegularityScore (activeDays : Z) (filteredCount : Z) : Z :=
  let avg : Q :=
    if activeDays =? 0 then 0%Q
    else JS.Number_toFixed 2 (inject_Z filteredCount / inject_Z activeDays) in
  JS.Math_round (Qmin 100 (inject_Z activeDays * 3 + avg * 10)%Q).

Definition regularityAsSpecified (now : Z) (sigs : list SignatureInfo)
  : Prop :=
  let r := getActivityRegularity now sigs in
  let filteredCount := Z.of_nat (length (recentOf now sigs)) in
  reg_activityRegularityScore r =
  specRegularityScore (reg_activeDaysLast30 r) filteredCount.

End SolanaClient.

(* --------------------------------------------------------------------- *)
(*  rse-server/src/features.ts and the /risk/recalculate route            *)
(* --------------------------------------------------------------------- *)
Module Features.
Import SolanaClient StripeOracle.

Section Chain.

(** The RPC node: [None] stands for a rejected promise (the request,
    or the construction of the public key, throws). *)
Variable getSignaturesForAddress :
  string -> nat -> option (list SignatureInfo).
Variable getParsedTokenAccountsByOwner :
  string -> option (list TokenAmount).
(** The readings of [Date.now()] in [getWalletTxStats] and in
    [getActivityRegularity]. *)
Variable nowStats nowActivity : Z.

Definition buildFeatures (wallet : string) : option WalletFeatures :=
  sigs1000 ← getSignaturesForAddress wallet 1000%nat;
  let stats := getWalletTxStats nowStats sigs1000 in
  accounts ← getParsedTokenAccountsByOwner wallet;
  let assets := getTokenAccountStats accounts in
  sigs500 ← getSignaturesForAddress wallet 500%nat;
  let regularity := getActivityRegularity nowActivity sigs500 in
  Some {|
    txCount := stats_txCount stats;
    walletAgeDays := stats_walletAgeDays stats;
    nftCount := assets_nftCount assets;
    successfulRepayments := 0;
    defaults := 0;
    humanVerified := false;
    tokenCount := assets_tokenCount assets;
    hasVC := assets_tokenCount assets >? 0;
    activeDaysLast30 := Some (reg_activeDaysLast30 regularity);
    avgTxPerActiveDay := Some (reg_avgTxPerActiveDay regularity);
    activityRegularityScore := Some (reg_activityRegularityScore regularity)
  |}.

(** Property names of the two objects spread into [features]. *)
Definition walletFeatureKeys : list string :=
  ["txCount"; "walletAgeDays"; "nftCount"; "successfulRepayments";
   "defaults"; "humanVerified"; "tokenCount"; "hasVC";
   "activeDaysLast30"; "avgTxPerActiveDay";
   "activityRegularityScore"]%string.

Definition stripeFeatureKeys : list string :=
  ["incomeVerified"; "incomeBracket"; "incomeDebtRatio"]%string.

(** [{...baseFeatures, ...stripeFeatures}]: no property of the second
    object has the name of one of the first, so the spread keeps
    every wallet feature. *)
Record MergedFeatures : Type := {
  merged_wallet : WalletFeatures;
  merged_income : IncomeFeatures
}.

Definition spread (b : WalletFeatures) (s : IncomeFeatures)
  : MergedFeatures :=
  {| merged_wallet := b; merged_income := s |}.

Record RecalculateBody : Type := {
  body_wallet : option string;
  body_monthlyIncome : option Q;
  body_debt : option Q
}.

Inductive Response : Type :=
| Status400 (error : string)
| Status200 (wallet : string) (score : Z) (tier : string)
    (features_used : MergedFeatures)
| Status500 (error : string).

(** [const { wallet, monthlyIncome = 0, debt = 0 } = req.body]. *)
Definition recalculate (body : RecalculateBody) : Response :=
  let monthlyIncome := default 0%Q (body_monthlyIncome body) in
  let debt := default 0%Q (body_debt body) in
  match body_wallet body with
  | None => Status400 "wallet required"
  | Some wallet =>
      if String.eqb wallet "" then Status400 "wallet required"
      else
        match buildFeatures wallet with
        | Some baseFeatures =>
            let stripeFeatures :=
              deriveStripeIncomeFeatures monthlyIncome debt in
            let features := spread baseFeatures stripeFeatures in
            let score :=
              Scoring.computeTigerScore (merged_wallet features) in
            let tier := Scoring.getTier score in
            Status200 wallet score tier features
        | None => Status500 "failed to read wallet data"
        end
  end.

End Chain.

End Features.

(* --------------------------------------------------------------------- *)
(*  loan-decision-backend/config.js                                       *)
(* --------------------------------------------------------------------- *)
Module Config.

Record LoanTier : Type := {
  level : Z;
  minTigerScore : Z;
  maxLoanLimit : Z;
  baseInterestRate : Z;
  maxDtiRatio : Q;
  loanApplicationVelocityLimit : Z;
  description : string
}.

Definition LOAN_TIERS : list LoanTier := [
  {| level := 0; minTigerScore := 0; maxLoanLimit := 50;
     baseInterestRate := 15; maxDtiRatio := 2 # 10;
     loanApplicationVelocityLimit := 3;
     description := "Entry-level micro-loan. Build your trust!" |};
  {| level := 1; minTigerScore := 200; maxLoanLimit := 150;
     baseInterestRate := 10; maxDtiRatio := 3 # 10;
     loanApplicationVelocityLimit := 2;
     description := "Intermediate borrower. Higher limits, lower rates." |};
  {| level := 2; minTigerScore := 400; maxLoanLimit := 500;
     baseInterestRate := 7; maxDtiRatio := 4 # 10;
     loanApplicationVelocityLimit := 1;
     description := "Trusted borrower. Significant limits, good rates." |};
  {| level := 3; minTigerScore := 600; maxLoanLimit := 1000;
     baseInterestRate := 5; maxDtiRatio := 5 # 10;
     loanApplicationVelocityLimit := 1;
     description := "Elite borrower. Maximum limits, best rates." |}
].

Definition MIN_REQUIRED_INCOME_PROOF : Z := 100.

Definition REPAYMENT_TERMS : list (string * Z) :=
  [("7_days", 7); ("15_days", 15); ("30_days", 30); ("60_days", 60);
   ("90_days", 90)]%string.

(** Names that every object literal answers to through
    [Object.prototype]; their values are functions or objects. *)
Definition objectPrototypeKeys : list string :=
  ["constructor"; "toString"; "toLocaleString"; "valueOf";
   "hasOwnProperty"; "isPrototypeOf"; "propertyIsEnumerable";
   "__proto__"; "__defineGetter__"; "__defineSetter__";
   "__lookupGetter__"; "__lookupSetter__"]%string.

Inductive property : Type :=
| Own (days : Z)
| Inherited
| Absent.

Fixpoint assoc (k : string) (l : list (string * Z)) : option Z :=
  match l with
  | [] => None
  | (k', v) :: l' => if String.eqb k k' then Some v else assoc k l'
  end.

(** [REPAYMENT_TERMS[key]]. *)
Definition getRepaymentTerm (key : string) : property :=
  match assoc key REPAYMENT_TERMS with
  | Some d => Own d
  | None =>
      if existsb (String.eqb key) objectPrototypeKeys
      then Inherited else Absent
  end.

Definition propertyTruthy (p : property) : bool :=
  match p with
  | Own d => negb (d =? 0)
  | Inherited => true
  | Absent => false
  end.

End Config.

(* --------------------------------------------------------------------- *)
(*  loan-decision-backend/utils/loanProgram.js                            *)
(* --------------------------------------------------------------------- *)
Module LoanProgram.

(** The borsh schema: u64, u8, string, [u8; 32], u64, u64.  The hash is
    an option so that [getVerifiedIncome] can be given a profile object
    without one; a decoded hash is a byte array, truthy whatever its
    bytes. *)
Record UserProfile : Type := {
  tigerScore : Z;
  levelUpTier : Z;
  did : string;
  humanVerifiedVcHash : option (list Z);
  createdAt : Z;
  updatedAt : Z
}.

Record LoanAccount : Type := {
  loanId : string;
  borrower : string;
  amount : Z;
  outstandingAmount : Z;
  interestRate : Z;
  repaymentDueDate : Z;
  status : Z;
  incomeProofVcHash : list Z;
  loan_createdAt : Z
}.

(** [accounts]: the loan accounts found at the borrower's derived
    addresses that exist and deserialize. *)
Definition getOutstandingLoans (accounts : list LoanAccount)
  : list LoanAccount :=
  List.filter
    (fun loanAccount =>
       (status loanAccount =? 0) && (outstandingAmount loanAccount >? 0))
    accounts.

(** [profile] is [None] for a null profile. *)
Definition getVerifiedIncome (profile : option UserProfile) : Z :=
  match profile with
  | None => 0
  | Some p =>
      match humanVerifiedVcHash p with
      | None => 0
      | Some _ =>
          let baseIncome := 200 in
          let scoreBonus :=
            JS.Math_floor (inject_Z (tigerScore p) * (5 # 10)) in
          Z.min (baseIncome + scoreBonus) 10000
      end
  end.

End LoanProgram.

(* --------------------------------------------------------------------- *)
(*  loan-decision-backend/server.js                                       *)
(* --------------------------------------------------------------------- *)
Module Server.
Import Config LoanProgram.

(** The tier scan [for (let i = LOAN_TIERS.length - 1; i >= 0; i--)]:
    [scanTiers tiers score n] runs the iterations i = n-1, ..., 0. *)
Fixpoint scanTiers (tiers : list LoanTier) (score : Z) (n : nat)
  : option LoanTier :=
  match n with
  | O => None
  | S i =>
      match nth_error tiers i with
      | Some t =>
          if score >=? minTigerScore t then Some t
          else scanTiers tiers score i
      | None => scanTiers tiers score i
      end
  end.

Definition resolveTier (score : Z) : option LoanTier :=
  scanTiers LOAN_TIERS score (length LOAN_TIERS).

(** A tier table in the order the configuration promises: thresholds
    and levels do not decrease along the table. *)
Definition ascending (tiers : list LoanTier) : Prop :=
  forall i j ti tj,
    (i <= j)%nat ->
    nth_error tiers i = Some ti ->
    nth_error tiers j = Some tj ->
    minTigerScore ti <= minTigerScore tj /\ level ti <= level tj.

(** [LOAN_TIERS[0].minTigerScore]. *)
Definition lowestMinTigerScore : Z :=
  match LOAN_TIERS with
  | t :: _ => minTigerScore t
  | [] => 0
  end.

(** The return statement that produced a declined response. *)
Inductive gate : Type :=
| ProfileNotFound
| InsufficientScore
| InsufficientIncome
| HighDebtToIncome
| VelocityExceeded
| AmountTooLow.

Record ProposedTerms : Type := {
  approvedAmount : Q;
  requestedAmount : Q;
  terms_interestRate : Z;
  repaymentTerm : string;
  repaymentDays : option Z;
  interestAmount : option Q;
  totalRepaymentAmount : option Q;
  dailyPayment : option Q;
  terms_repaymentDueDate : option Z;
  tier_level : Z;
  tier_description : string;
  borrower_tigerScore : Z;
  borrower_verifiedIncome : Z;
  borrower_currentDti : Q;
  borrower_outstandingDebt : Q
}.

Inductive LoanResponse : Type :=
| BadRequest (rejectionReason : JS.template)
| Declined (g : gate) (rejectionReason : JS.template)
| Approved (proposedTerms : ProposedTerms).

Definition declinedAt (g : gate) (r : LoanResponse) : Prop :=
  exists rejectionReason, r = Declined g rejectionReason.

Record ApplyBody : Type := {
  walletAddress : JS.value;
  loanAmount : JS.value;
  body_repaymentTerm : JS.value
}.

(** [Math.round(x * 100) / 100]. *)
Definition round2 (x : Q) : Q :=
  (inject_Z (JS.Math_round (x * 100)) / 100)%Q.

(** [outstandingLoans.reduce((total, loan) => total +
    loan.outstandingAmount / 1000000, 0)]. *)
Definition outstandingDebt (loans : list LoanAccount) : Q :=
  fold_left
    (fun total loan =>
       (total + inject_Z (outstandingAmount loan) / 1000000)%Q)
    loans 0%Q.

Definition scoreBasedLimit (score : Z) : Z :=
  JS.Math_floor (inject_Z score * (8 # 10)).

Definition incomeBasedLimit (income : Z) : Z :=
  JS.Math_floor (inject_Z income * (3 # 10)).

(** [Math.min(tierMaxAmount, scoreBasedLimit, incomeBasedLimit)]. *)
Definition maxApprovedLoanAmount (t : LoanTier) (score income : Z) : Z :=
  Z.min (Z.min (maxLoanLimit t) (scoreBasedLimit score))
        (incomeBasedLimit income).

Definition dtiMessage (currentDti : Q) (t : LoanTier) : JS.template :=
  [JS.Lit "High Debt-to-Income Ratio (";
   JS.Fixed 1 (currentDti * 100)%Q;
   JS.Lit "%). Maximum allowed: ";
   JS.Fixed 1 (maxDtiRatio t * 100)%Q;
   JS.Lit "%"].

(** The property key a body value is converted to, for a string; the
    string forms of the other values name no property of the table. *)
Definition propertyOf (v : JS.value) : property :=
  match v with
  | JS.Str s => getRepaymentTerm s
  | _ => Absent
  end.

Definition termName (v : JS.value) : string :=
  match v with
  | JS.Str s => s
  | _ => ""
  end.

Section Pipeline.

Variable PublicKey : Type.
(** [new PublicKey(walletAddress)]; [None] when it throws. *)
Variable newPublicKey : JS.value -> option PublicKey.
(** The profile account of a wallet, decoded; [None] when absent. *)
Variable getUserProfile : PublicKey -> option UserProfile.
(** The decodable loan accounts of a wallet. *)
Variable loanAccountsOf : PublicKey -> list LoanAccount.
(** The reading of [Math.random()], in [0, 1). *)
Variable random : Q.
(** The reading of [Date.now()], in milliseconds. *)
Variable now : Z.

Definition proposeTerms (body : ApplyBody) (amount : Q)
    (userProfile : UserProfile) (appropriateTier : LoanTier)
    (verifiedMonthlyIncomeUSD : Z) (outstandingDebtUSD currentDti : Q)
    (maxAmount : Z) : ProposedTerms :=
  let approved := JS.Math_min amount (inject_Z maxAmount) in
  let rate := baseInterestRate appropriateTier in
  let days :=
    match propertyOf (body_repaymentTerm body) with
    | Own d => Some d
    | _ => None
    end in
  let interest :=
    (fun d => (approved * inject_Z rate * inject_Z d / (100 * 365))%Q)
      <$> days in
  let total := (fun i => (approved + i)%Q) <$> interest in
  let daily :=
    d ← days; t ← total; Some (t / inject_Z d)%Q in
  let currentTimestamp := now / 1000 in
  {| approvedAmount := approved;
     requestedAmount := amount;
     terms_interestRate := rate;
     repaymentTerm := termName (body_repaymentTerm body);
     repaymentDays := days;
     interestAmount := round2 <$> interest;
     totalRepaymentAmount := round2 <$> total;
     dailyPayment := round2 <$> daily;
     terms_repaymentDueDate :=
       (fun d => currentTimestamp + d * 24 * 60 * 60) <$> days;
     tier_level := level appropriateTier;
     tier_description := description appropriateTier;
     borrower_tigerScore := tigerScore userProfile;
     borrower_verifiedIncome := verifiedMonthlyIncomeUSD;
     borrower_currentDti :=
       (inject_Z (JS.Math_round (currentDti * 1000)) / 10)%Q;
     borrower_outstandingDebt := round2 outstandingDebtUSD |}.

(** Steps 1 to 7 of POST /api/loan/apply, after input validation. *)
Definition processApplication (body : ApplyBody) (amount : Q) (key : PublicKey)
  : LoanResponse :=
  match getUserProfile key with
  | None =>
      Declined ProfileNotFound
        [JS.Lit "User profile not found. Please complete identity verification first."]
  | Some userProfile =>
  match resolveTier (tigerScore userProfile) with
  | None =>
      Declined InsufficientScore
        [JS.Lit "Insufficient TigerScore (";
         JS.Interp (inject_Z (tigerScore userProfile));
         JS.Lit "). Minimum required: ";
         JS.Interp (inject_Z lowestMinTigerScore)]
  | Some appropriateTier =>
  let verifiedMonthlyIncomeUSD := getVerifiedIncome (Some userProfile) in
  if verifiedMonthlyIncomeUSD <? MIN_REQUIRED_INCOME_PROOF then
    Declined InsufficientIncome
      [JS.Lit "Insufficient verified income ($";
       JS.Interp (inject_Z verifiedMonthlyIncomeUSD);
       JS.Lit "). Minimum required: $";
       JS.Interp (inject_Z MIN_REQUIRED_INCOME_PROOF);
       JS.Lit "/month"]
  else
  let outstandingLoans := getOutstandingLoans (loanAccountsOf key) in
  let outstandingDebtUSD := outstandingDebt outstandingLoans in
  let currentDti :=
    (outstandingDebtUSD / inject_Z verifiedMonthlyIncomeUSD)%Q in
  if JS.gt currentDti (maxDtiRatio appropriateTier) then
    Declined HighDebtToIncome (dtiMessage currentDti appropriateTier)
  else
  let recentApplications := JS.Math_floor (random * 3) in
  if recentApplications >=? loanApplicationVelocityLimit appropriateTier
  then
    Declined VelocityExceeded
      [JS.Lit "Too many recent loan applications (";
       JS.Interp (inject_Z recentApplications);
       JS.Lit "). Please wait before applying again."]
  else
  let maxAmount :=
    maxApprovedLoanAmount appropriateTier (tigerScore userProfile)
      verifiedMonthlyIncomeUSD in
  if JS.gt amount (inject_Z maxAmount) && (maxAmount <? 10) then
    Declined AmountTooLow
      [JS.Lit "Requested amount ($";
       JS.Interp amount;
       JS.Lit ") exceeds maximum approved amount ($";
       JS.Interp (inject_Z maxAmount);
       JS.Lit "). Please build your TigerScore first."]
  else
    Approved
      (proposeTerms body amount userProfile appropriateTier
         verifiedMonthlyIncomeUSD outstandingDebtUSD currentDti maxAmount)
  end
  end.

(** POST /api/loan/apply. *)
Definition applyForLoan (body : ApplyBody) : LoanResponse :=
  if negb (JS.truthy (walletAddress body))
     || negb (JS.truthy (loanAmount body))
     || negb (JS.truthy (body_repaymentTerm body))
  then
    BadRequest
      [JS.Lit "Missing required fields: walletAddress, loanAmount, repaymentTerm"]
  else
  match loanAmount body with
  | JS.Num amount =>
      if Qle_bool amount 0 then
        BadRequest [JS.Lit "Invalid loan amount. Must be a positive number."]
      else if negb (propertyTruthy (propertyOf (body_repaymentTerm body)))
      then
        BadRequest
          [JS.Lit "Invalid repayment term. Supported terms: ";
           JS.Lit (String.concat ", " (List.map fst REPAYMENT_TERMS))]
      else
        match newPublicKey (walletAddress body) with
        | None => BadRequest [JS.Lit "Invalid wallet address format."]
        | Some walletPublicKey =>
            processApplication body amount walletPublicKey
        end
  | _ => BadRequest [JS.Lit "Invalid loan amount. Must be a positive number."]
  end.

End Pipeline.

End Server.

(* --------------------------------------------------------------------- *)
(*  A feature record with another repayment history                       *)
(* --------------------------------------------------------------------- *)
Module History.

(** [{ ...f, successfulRepayments: r, defaults: d }]. *)
Definition withHistory (f : WalletFeatures) (r d : Z) : WalletFeatures :=
  {| txCount := txCount f;
     walletAgeDays := walletAgeDays f;
     nftCount := nftCount f;
     tokenCount := tokenCount f;
     successfulRepayments := r;
     defaults := d;
     humanVerified := humanVerified f;
     hasVC := hasVC f;
     activeDaysLast30 := activeDaysLast30 f;
     avgTxPerActiveDay := avgTxPerActiveDay f;
     activityRegularityScore := activityRegularityScore f |}.

End History.

(* --------------------------------------------------------------------- *)
(*  rse-server/src/helius.ts                                              *)
(* --------------------------------------------------------------------- *)
Module Helius.

(** An item of [getAssetsByOwner]; only its interface name is read. *)
Record Asset : Type := { interface : string }.

(** The body of the RPC answer, [res.data]: [result] may be missing,
    and so may [result.items]. *)
Record RpcData : Type := { result : option (option (list Asset)) }.

Record AssetCounts : Type := { helius_tokenCount : Z; helius_nftCount : Z }.

Definition isNft (i : Asset) : bool :=
  String.eqb (interface i) "V1_NFT" || String.eqb (interface i) "V2_NFT".

(** [data] is [res.data] of the POST; an array, also an empty one, is
    truthy, so [|| []] only replaces a missing list. *)
Definition getHeliusAssets (data : RpcData) : AssetCounts :=
  let items :=
    match result data with
    | Some (Some items) => items
    | _ => []
    end in
  let nftCount := Z.of_nat (length (List.filter isNft items)) in
  {| helius_tokenCount := Z.of_nat (length items);
     helius_nftCount := nftCount |}.

End Helius.

(* --------------------------------------------------------------------- *)
(*  loan-decision-backend/utils/loanProgram.js: reading the loan accounts *)
(* --------------------------------------------------------------------- *)
Module LoanAccounts.
Import LoanProgram.

Section Chain.

Variable ProgramId PDA : Type.
(** [new PublicKey(LOAN_ACCOUNT_PROGRAM_ID)]; [None] when it throws. *)
Variable newProgramId : string -> option ProgramId.
(** [PublicKey.findProgramAddress] for the seeds 'loan', the borrower
    and the index written in decimal; [None] when it throws. *)
Variable findProgramAddress : ProgramId -> nat -> option PDA.
(** The loan account at an address: [None] when [getAccountInfo]
    throws or answers null or without data, or when the data does not
    deserialize. *)
Variable loanAccountAt : PDA -> option LoanAccount.

(** [programIdVar] is the environment variable; unset and empty are
    falsy.  The result is [None] when the function throws. *)
Definition findLoanAccountPDAs (programIdVar : option string)
  : option (list PDA) :=
  match programIdVar with
  | None => Some []
  | Some id =>
      if String.eqb id "" then Some []
      else
        match newProgramId id with
        | None => None
        | Some programId =>
            Some (omap (findProgramAddress programId) (List.seq 0 10))
        end
  end.

(** [getOutstandingLoans(connection, borrowerPublicKey)]: the outer
    catch answers the empty list. *)
Definition getOutstandingLoansOf (programIdVar : option string)
  : list LoanAccount :=
  match findLoanAccountPDAs programIdVar with
  | None => []
  | Some loanAccountPDAs =>
      getOutstandingLoans (omap loanAccountAt loanAccountPDAs)
  end.

End Chain.

(** The range of a borsh u64. *)
Definition u64 (n : Z) : Prop := 0 <= n < 2 ^ 64.

End LoanAccounts.

(* --------------------------------------------------------------------- *)
(*  loan-decision-backend/server.js: GET /api/loan/eligibility            *)
(* --------------------------------------------------------------------- *)
Module Eligibility.
Import Config LoanProgram Server.

Record Info : Type := {
  info_tigerScore : Z;
  info_tier : LoanTier;
  maxEligibleAmount : Z;
  info_verifiedIncome : Z;
  info_currentDti : option Q;
  info_outstandingDebt : Q;
  isEligible : bool
}.

Inductive Response : Type :=
| InvalidWallet
| NoProfile
| InternalError
| Success (eligibility : Info).

Section Route.

Variable PublicKey : Type.
Variable newPublicKey : JS.value -> option PublicKey.
Variable getUserProfile : PublicKey -> option UserProfile.
Variable loanAccountsOf : PublicKey -> list LoanAccount.

(** [let appropriateTier = LOAN_TIERS[0]] followed by the scan; [None]
    is an undefined entry, on which the reads below throw. *)
Definition tierOrFirst (score : Z) : option LoanTier :=
  match resolveTier score with
  | Some t => Some t
  | None => head LOAN_TIERS
  end.

(** [walletAddress] is the route parameter.  A quotient by a zero
    income is NaN or Infinity: [None]. *)
Definition checkEligibility (walletAddress : string) : Response :=
  match newPublicKey (JS.Str walletAddress) with
  | None => InvalidWallet
  | Some walletPublicKey =>
  match getUserProfile walletPublicKey with
  | None => NoProfile
  | Some userProfile =>
  match tierOrFirst (tigerScore userProfile) with
  | None => InternalError
  | Some appropriateTier =>
      let verifiedIncome := getVerifiedIncome (Some userProfile) in
      let outstandingLoans :=
        getOutstandingLoans (loanAccountsOf walletPublicKey) in
      let debt := outstandingDebt outstandingLoans in
      let currentDti :=
        if verifiedIncome =? 0 then None
        else Some (debt / inject_Z verifiedIncome)%Q in
      let tierMaxAmount := maxLoanLimit appropriateTier in
      let scoreLimit := scoreBasedLimit (tigerScore userProfile) in
      let incomeLimit := incomeBasedLimit verifiedIncome in
      let maxAmount :=
        Z.min (Z.min tierMaxAmount scoreLimit) incomeLimit in
      Success
        {| info_tigerScore := tigerScore userProfile;
           info_tier := appropriateTier;
           maxEligibleAmount := maxAmount;
           info_verifiedIncome := verifiedIncome;
           info_currentDti :=
             (fun d => inject_Z (JS.Math_round (d * 1000)) / 10)%Q
               <$> currentDti;
           info_outstandingDebt := round2 debt;
           isEligible :=
             (verifiedIncome >=? MIN_REQUIRED_INCOME_PROOF)
             && match currentDti with
                | Some d => Qle_bool d (maxDtiRatio appropriateTier)
                | None => false
                end |}
  end
  end
  end.

End Route.

End Eligibility.

(* --------------------------------------------------------------------- *)
(*  The loan dashboard page: the limit and the rate it displays           *)
(* --------------------------------------------------------------------- *)
Module Dashboard.

(** [tigerScore] is the page state, null until a score is loaded. *)
Definition getMaxLoanAmount (tigerScore : option Z) : Z :=
  match tigerScore with
  | None => 50
  | Some score =>
      if score >=? 600 then 1000
      else if score >=? 400 then 500
      else if score >=? 200 then 150
      else 50
  end.

(** The "Interest Rate Range" cell. *)
Definition interestRateLabel (score : Z) : string :=
  if score >=? 600 then "5%"
  else if score >=? 400 then "7%"
  else if score >=? 200 then "10%"
  else "15%".

End Dashboard.

(* --------------------------------------------------------------------- *)
(*  Reference inputs                                                      *)
(* --------------------------------------------------------------------- *)
Module Inputs.
Import SolanaClient.

(** A borrower with twelve repaid loans, human verification and a
    regular activity pattern. *)
Definition repaidTwelve : WalletFeatures :=
  {| txCount := 0; walletAgeDays := 0; nftCount := 0; tokenCount := 0;
     successfulRepayments := 12; defaults := 0;
     humanVerified := true; hasVC := false;
     activeDaysLast30 := Some 20; avgTxPerActiveDay := Some 1%Q;
     activityRegularityScore := Some 70 |}.

(** A borrower with three defaults and a regular activity pattern. *)
Definition defaultedThrice : WalletFeatures :=
  {| txCount := 0; walletAgeDays := 0; nftCount := 0; tokenCount := 0;
     successfulRepayments := 0; defaults := 3;
     humanVerified := false; hasVC := false;
     activeDaysLast30 := Some 20; avgTxPerActiveDay := Some 1%Q;
     activityRegularityScore := Some 70 |}.

Definition sigAt (seconds : Z) : SignatureInfo :=
  {| blockTime := Some seconds |}.

(** Day 100 after the epoch, as a reading of [Date.now()]. *)
Definition day100 : Z := 100 * DAY_MS.

(** Twenty-three signatures on twenty-two consecutive days before day
    100: two on day 99, one on each of the days 98 down to 78. *)
Definition twentyThreeOnTwentyTwoDays : list SignatureInfo :=
  sigAt (99 * 86400 + 60)
  :: List.map (fun i => sigAt ((100 - Z.of_nat i) * 86400))
       (List.seq 1 22).

(** A devnet wallet read on day 300: 150 signatures, one every second
    day back to day 2, and two token accounts of which one is
    NFT-like. *)
Definition demoSignatures (limit : nat) : list SignatureInfo :=
  List.map (fun i => sigAt ((300 - 2 * Z.of_nat i) * 86400))
    (List.seq 0 (Nat.min limit 150)).

Definition demoAccounts : list TokenAmount :=
  [ {| decimals := 0; uiAmount := Some 1%Q |};
    {| decimals := 6; uiAmount := Some (25 # 10)%Q |} ].

Definition demoWallet : string :=
  "9xQeWvG816bUx9EPjHmaT23yvVM2ZWbrrpZb9PusVFin".

Definition demoBody : Features.RecalculateBody :=
  {| Features.body_wallet := Some demoWallet;
     Features.body_monthlyIncome := Some 3000%Q;
     Features.body_debt := Some 700%Q |}.

Definition demoRecalculate : Features.Response :=
  Features.recalculate
    (fun _ limit => Some (demoSignatures limit))
    (fun _ => Some demoAccounts)
    (300 * DAY_MS) (300 * DAY_MS) demoBody.

End Inputs.

Module LoanInputs.
Import Config LoanProgram Server.

(** A profile that went through identity verification. *)
Definition verifiedProfile (score : Z) : UserProfile :=
  {| tigerScore := score; levelUpTier := 0;
     did := "did:tigertrust:demo";
     humanVerifiedVcHash := Some (repeat 171 32);
     createdAt := 1700000000; updatedAt := 1700000000 |}.

Definition unverifiedProfile (score : Z) : UserProfile :=
  {| tigerScore := score; levelUpTier := 0;
     did := "did:tigertrust:demo";
     humanVerifiedVcHash := None;
     createdAt := 1700000000; updatedAt := 1700000000 |}.

(** An active loan with the given balance in millionths of a USDC. *)
Definition activeLoan (balance : Z) : LoanAccount :=
  {| loanId := "loan-0"; borrower := Inputs.demoWallet;
     amount := balance; outstandingAmount := balance;
     interestRate := 10; repaymentDueDate := 1702592000;
     status := 0; incomeProofVcHash := repeat 0 32;
     loan_createdAt := 1700000000 |}.

Definition parseKey (v : JS.value) : option string :=
  match v with
  | JS.Str s => Some s
  | _ => None
  end.

Definition request (amount : Q) : ApplyBody :=
  {| walletAddress := JS.Str Inputs.demoWallet;
     loanAmount := JS.Num amount;
     body_repaymentTerm := JS.Str "30_days" |}.

(** The apply route for a verified borrower with one active loan, no
    recent application drawn, at a fixed clock. *)
Definition submit (score balance : Z) (amount : Q) : LoanResponse :=
  applyForLoan string parseKey
    (fun _ => Some (verifiedProfile score))
    (fun _ => [activeLoan balance])
    0%Q 1700000000000 (request amount).

Definition tier0 : LoanTier :=
  {| level := 0; minTigerScore := 0; maxLoanLimit := 50;
     baseInterestRate := 15; maxDtiRatio := 2 # 10;
     loanApplicationVelocityLimit := 3;
     description := "Entry-level micro-loan. Build your trust!" |}.

Definition tier2 : LoanTier :=
  {| level := 2; minTigerScore := 400; maxLoanLimit := 500;
     baseInterestRate := 7; maxDtiRatio := 4 # 10;
     loanApplicationVelocityLimit := 1;
     description := "Trusted borrower. Significant limits, good rates." |}.

(** The amount floor in the words of the specification: a maximum
    eligible amount below 10 declines every positive request. *)
Definition amountFloorAsSpecified (score balance : Z) (amount : Q) : Prop :=
  forall tier,
    resolveTier score = Some tier ->
    maxApprovedLoanAmount tier score
      (getVerifiedIncome (Some (verifiedProfile score))) < 10 ->
    (0 < amount)%Q ->
    declinedAt AmountTooLow (submit score balance amount).

End LoanInputs.

Module MoreInputs.
Import SolanaClient.

(** Thirty-one signatures, one at noon of each of the days 70 to 100,
    read at 12:00 on day 100. *)
Definition noonOfDay100 : Z := 100 * DAY_MS + 12 * 60 * 60 * 1000.

Definition dailyAtNoon : list SignatureInfo :=
  List.map (fun i => Inputs.sigAt ((100 - Z.of_nat i) * 86400 + 43200))
    (List.seq 0 31).

End MoreInputs.

Module ChainInputs.
Import LoanProgram.

(** A borrower with three loan accounts at the indices 0, 2 and 5: an
    active one of 40 USDC, a repaid one, and an active one of 2.5
    USDC. *)
Definition loanAt (i : nat) : option LoanAccount :=
  match i with
  | 0%nat => Some (LoanInputs.activeLoan 40000000)
  | 2%nat =>
      Some {| loanId := "loan-2"; borrower := Inputs.demoWallet;
              amount := 90000000; outstandingAmount := 0;
              interestRate := 10; repaymentDueDate := 1702592000;
              status := 1; incomeProofVcHash := repeat 0 32;
              loan_createdAt := 1700000000 |}
  | 5%nat => Some (LoanInputs.activeLoan 2500000)
  | _ => None
  end.

Definition outstandingLoans : list LoanAccount :=
  LoanAccounts.getOutstandingLoansOf string nat
    (fun id => Some id) (fun _ i => Some i) loanAt
    (Some "LoanProg11111111111111111111111111111111111"%string).

End ChainInputs.

Module PipelineInputs.
Import Config LoanProgram Server.

Definition requestWithTerm (amount : Q) (term : string) : ApplyBody :=
  {| walletAddress := JS.Str Inputs.demoWallet;
     loanAmount := JS.Num amount;
     body_repaymentTerm := JS.Str term |}.

(** The apply route over a chain that holds the given profile (if any)
    and one loan account of the given balance, with the given random
    draw. *)
Definition submitWith (profile : option UserProfile) (balance : Z)
    (random : Q) (body : ApplyBody) : LoanResponse :=
  applyForLoan string LoanInputs.parseKey
    (fun _ => profile) (fun _ => [LoanInputs.activeLoan balance])
    random 1700000000000 body.

(** The eligibility route over the same chain. *)
Definition checkWith (profile : option UserProfile) (balance : Z)
  : Eligibility.Response :=
  Eligibility.checkEligibility string LoanInputs.parseKey
    (fun _ => profile) (fun _ => [LoanInputs.activeLoan balance])
    Inputs.demoWallet.

End PipelineInputs.

(* ===================================================================== *)
(*  Part II.  Properties                                                  *)
(* ===================================================================== *)

(* --------------------------------------------------------------------- *)
(*  Score engine                                                          *)
(* --------------------------------------------------------------------- *)
Section ScoreEngine.
Import Scoring.

Ltac cases_of_score :=
  repeat match goal with
    | |- context [humanVerified ?f] => destruct (humanVerified f)
    | |- context [hasVC ?f] => destruct (hasVC f)
    | |- context [walletAgeDays ?f >? ?c] => destruct (walletAgeDays f >? c)
    | |- context [txCount ?f >? ?c] => destruct (txCount f >? c)
    | |- context [nftCount ?f >? ?c] => destruct (nftCount f >? c)
    end;
  repeat match goal with
    | |- context [if ?x <? ?y then _ else _] => destruct (Z.ltb_spec x y)
    end;
  repeat match goal with
    | |- context [if ?x >? ?y then _ else _] => destruct (Z.gtb_spec x y)
    end.

(** The bonus test [a && a > 40] is the test [a > 40] on a present
    field. *)
Lemma regularityBonusApplies_spec (a : option Z) :
  regularityBonusApplies a =
  match a with Some v => v >? 40 | None => false end.
Proof.
  destruct a as [v|]; simpl; trivial.
  destruct (Z.eqb_spec v 0) as [->|]; simpl; trivial.
Qed.

(** X1.  For every feature record the score lies between 0 and 1040:
    the clamp bounds the sum of the first seven terms, and the
    regularity bonus of 40 comes on top of it. *)
Lemma computeTigerScore_range (f : WalletFeatures) :
  0 <= computeTigerScore f <= 1040.
Proof.
  unfold computeTigerScore; cbv zeta.
  destruct (regularityBonusApplies _); cases_of_score; lia.
Qed.

Lemma computeTigerScore_no_bonus_range (f : WalletFeatures) :
  regularityBonusApplies (activityRegularityScore f) = false ->
  0 <= computeTigerScore f <= 1000.
Proof.
  intros H. unfold computeTigerScore; cbv zeta. rewrite H.
  cases_of_score; lia.
Qed.

Lemma computeTigerScore_clamp_then_bonus (f : WalletFeatures) :
  computeTigerScore f =
  clamp 0 1000 (sumBeforeBonus f)
  + (match activityRegularityScore f with
     | Some a => if a >? 40 then 40 else 0
     | None => 0
     end).
Proof.
  unfold computeTigerScore, sumBeforeBonus, additiveSum, clamp; cbv zeta.
  rewrite regularityBonusApplies_spec.
  destruct (activityRegularityScore f) as [a|];
    cases_of_score; lia.
Qed.

(** The implementation and the additive model agree as long as the sum
    of the first seven terms stays within [0, 960], or no bonus is
    due. *)
Lemma computeTigerScore_additive_in_range (f : WalletFeatures) :
  0 <= sumBeforeBonus f <= 960 ->
  computeTigerScore f = specScore f.
Proof.
  intros H. rewrite computeTigerScore_clamp_then_bonus.
  unfold specScore, clamp, sumBeforeBonus in *.
  destruct (activityRegularityScore f) as [a|]; cases_of_score; lia.
Qed.

(** C1.  The score engine does not keep its result within [0, 1000]:
    for a human-verified borrower with twelve successful repayments and
    an activity-regularity score of 70 the clamp yields 1000 and the
    regularity bonus, added after the clamp, makes the result 1040. *)
Theorem computeTigerScore_exceeds_1000 :
  computeTigerScore Inputs.repaidTwelve = 1040
  /\ ~ (0 <= computeTigerScore Inputs.repaidTwelve <= 1000).
Proof.
  assert (E : computeTigerScore Inputs.repaidTwelve = 1040) by reflexivity.
  split; [exact E | rewrite E; lia].
Qed.

(** C2.  The score engine is not the additive model with one final
    clamp: it clamps before the activity-regularity bonus.  At the top
    of the range it returns 1040 where the model gives 1000, and at the
    bottom 40 where the model gives 0. *)
Theorem computeTigerScore_clamps_before_bonus :
  computeTigerScore Inputs.repaidTwelve = 1040
  /\ specScore Inputs.repaidTwelve = 1000
  /\ computeTigerScore Inputs.defaultedThrice = 40
  /\ specScore Inputs.defaultedThrice = 0.
Proof. repeat split; reflexivity. Qed.

End ScoreEngine.

(* --------------------------------------------------------------------- *)
(*  Rounding                                                              *)
(* --------------------------------------------------------------------- *)
Section Rounding.

Lemma gt_iff (x y : Q) : JS.gt x y = true <-> (y < x)%Q.
Proof.
  unfold JS.gt. rewrite negb_true_iff.
  split; intros H.
  - apply Qnot_le_lt. intros Hle.
    apply Qle_bool_iff in Hle. congruence.
  - destruct (Qle_bool x y) eqn:E; trivial.
    apply Qle_bool_iff in E. exfalso. revert H. apply Qle_not_lt, E.
Qed.

Lemma gt_false_iff (x y : Q) : JS.gt x y = false <-> (x <= y)%Q.
Proof.
  unfold JS.gt. rewrite negb_false_iff. apply Qle_bool_iff.
Qed.

(** [Math.round x] is the integer within one half of [x], the upper one
    on a tie. *)
Lemma Math_round_nearest (x : Q) :
  (inject_Z (JS.Math_round x) - (1 # 2) <= x)%Q
  /\ (x < inject_Z (JS.Math_round x) + (1 # 2))%Q.
Proof.
  unfold JS.Math_round.
  pose proof (Qfloor_le (x + (1 # 2))) as Hlo.
  pose proof (Qlt_floor (x + (1 # 2))) as Hhi.
  rewrite inject_Z_plus in Hhi. change (inject_Z 1) with 1%Q in Hhi.
  split; lra.
Qed.

(** [Number(x.toFixed(2))] of a non-negative [x] is the hundredth within
    half a hundredth of [x], the upper one on a tie. *)
Lemma Number_toFixed_2_nearest (x : Q) :
  (0 <= x)%Q ->
  exists n : Z,
    JS.Number_toFixed 2 x == inject_Z n / 100
    /\ (inject_Z n - (1 # 2) <= 100 * x)%Q
    /\ (100 * x < inject_Z n + (1 # 2))%Q.
Proof.
  intros Hx. unfold JS.Number_toFixed.
  destruct (Qlt_le_dec x 0) as [Hneg|_]; [exfalso; lra|].
  exists (JS.toFixed_n 2 x). split; [reflexivity|].
  unfold JS.toFixed_n.
  change (inject_Z (10 ^ Z.of_nat 2)) with 100%Q.
  pose proof (Qfloor_le (x * 100 + (1 # 2))) as Hlo.
  pose proof (Qlt_floor (x * 100 + (1 # 2))) as Hhi.
  rewrite inject_Z_plus in Hhi. change (inject_Z 1) with 1%Q in Hhi.
  split; lra.
Qed.

Lemma Qdiv_nonneg (a b : Q) : (0 <= a)%Q -> (0 <= b)%Q -> (0 <= a / b)%Q.
Proof.
  intros Ha Hb. unfold Qdiv.
  apply Qmult_le_0_compat; [exact Ha|].
  apply Qinv_le_0_compat, Hb.
Qed.

End Rounding.

(* --------------------------------------------------------------------- *)
(*  Income oracle                                                         *)
(* --------------------------------------------------------------------- *)
Section IncomeOracle.
Import StripeOracle.





End IncomeOracle.

(* --------------------------------------------------------------------- *)
(*  Activity regularity                                                   *)
(* --------------------------------------------------------------------- *)
Section ActivityRegularity.
Import SolanaClient.

Lemma recentOf_window (now : Z) (sigs : list SignatureInfo) :
  recentOf now sigs =
  List.filter
    (fun s =>
       match blockTime s with
       | Some t => negb (t =? 0) && (now - t * 1000 <=? 30 * 24 * 60 * 60 * 1000)
       | None => false
       end) sigs.
Proof.
  apply List.filter_ext. intros s.
  unfold isRecent, blockTimeTruthy, blockTimeMs.
  destruct (blockTime s); reflexivity.
Qed.

(** The size of the set of dates is the length of a duplicate-free
    enumeration of the dates of the given signatures. *)
Lemma daysOf_distinct (recent : list SignatureInfo) :
  exists days : list Z,
    NoDup days
    /\ (forall x, x ∈ days <->
                  exists s, s ∈ recent /\ utcDate (blockTimeMs s) = x)
    /\ size (daysOf recent) = length days.
Proof.
  exists (elements (daysOf recent)). split; [apply NoDup_elements|].
  split; [|reflexivity].
  intros x. rewrite elem_of_elements. unfold daysOf.
  rewrite elem_of_list_to_set, list_elem_of_In, in_map_iff.
  split; intros (s & H1 & H2); exists s.
  - apply list_elem_of_In in H2. auto.
  - apply list_elem_of_In in H1. auto.
Qed.

Lemma size_list_to_set_le (l : list Z) :
  (size (list_to_set l : gset Z) <= length l)%nat.
Proof.
  induction l as [|x l IH].
  - rewrite list_to_set_nil, size_empty. lia.
  - rewrite list_to_set_cons. cbn [length].
    pose proof (size_union_alt {[x]} (list_to_set l : gset Z)) as Hu.
    rewrite size_singleton in Hu.
    assert (size (list_to_set l ∖ {[x]} : gset Z)
            <= size (list_to_set l : gset Z))%nat
      by (apply subseteq_size, subseteq_difference_l; reflexivity).
    lia.
Qed.

Lemma activeDays_le_filteredCount (recent : list SignatureInfo) :
  (size (daysOf recent) <= length recent)%nat.
Proof.
  unfold daysOf.
  etransitivity; [apply size_list_to_set_le|].
  rewrite length_map. lia.
Qed.

(** C8 (as stated).  With twenty-three signatures on twenty-two days the
    formula of the specification, fed with the average rounded to 1.05,
    gives round(66 + 10.5) = 77; the client computes round(66 +
    10.4545...) = 76. *)
Lemma regularityAsSpecified_fails :
  ~ regularityAsSpecified Inputs.day100 Inputs.twentyThreeOnTwentyTwoDays.
Proof.
  unfold regularityAsSpecified. vm_compute. discriminate.
Qed.

(** C8 (amended).  Over the signatures within the last 30 x 24 h,
    activeDaysLast30 is the number of distinct UTC days; the reported
    avgTxPerActiveDay is filteredCount / activeDaysLast30 (0 without an
    active day) rounded to two decimals; and activityRegularityScore is
    min(100, activeDaysLast30 * 3 + average * 10) rounded to the nearest
    integer, where the average enters at full precision, before its
    rounding to two decimals. *)
Theorem getActivityRegularity_full_precision
    (now : Z) (sigs : list SignatureInfo) :
  let r := getActivityRegularity now sigs in
  let recent :=
    List.filter
      (fun s =>
         match blockTime s with
         | Some t =>
             negb (t =? 0) && (now - t * 1000 <=? 30 * 24 * 60 * 60 * 1000)
         | None => false
         end) sigs in
  let d := reg_activeDaysLast30 r in
  let average : Q :=
    if d =? 0 then 0%Q
    else (inject_Z (Z.of_nat (length recent)) / inject_Z d)%Q in
  (exists days : list Z,
      NoDup days
      /\ (forall x, x ∈ days <->
            exists s t, s ∈ recent /\ blockTime s = Some t
                        /\ x = t * 1000 / 86400000)
      /\ d = Z.of_nat (length days))
  /\ (exists n : Z,
        reg_avgTxPerActiveDay r == inject_Z n / 100
        /\ (inject_Z n - (1 # 2) <= 100 * average)%Q
        /\ (100 * average < inject_Z n + (1 # 2))%Q)
  /\ (inject_Z (reg_activityRegularityScore r) - (1 # 2)
      <= Qmin 100 (inject_Z d * 3 + average * 10))%Q
  /\ (Qmin 100 (inject_Z d * 3 + average * 10)
      < inject_Z (reg_activityRegularityScore r) + (1 # 2))%Q.
Proof.
  intros r recent d average.
  assert (Hrec : recent = recentOf now sigs)
    by (symmetry; apply recentOf_window).
  assert (Hd : d = Z.of_nat (size (daysOf recent)))
    by (rewrite Hrec; reflexivity).
  assert (Havg : (0 <= average)%Q).
  { unfold average. destruct (d =? 0); [apply Qle_refl|].
    apply Qdiv_nonneg.
    - change 0%Q with (inject_Z 0). rewrite <- Zle_Qle. lia.
    - change 0%Q with (inject_Z 0). rewrite <- Zle_Qle. lia. }
  split; [|split].
  - destruct (daysOf_distinct recent) as (days & Hnd & Hin & Hsz).
    exists days. split; [exact Hnd|]. split; [|lia].
    intros x. rewrite Hin. split.
    + intros (s & Hs & Hx).
      assert (Ht : exists t, blockTime s = Some t).
      { unfold recent in Hs. apply list_elem_of_In, filter_In in Hs.
        destruct Hs as [_ Hs]. destruct (blockTime s); [eauto|discriminate]. }
      destruct Ht as [t Ht]. exists s, t.
      unfold utcDate, blockTimeMs in Hx. rewrite Ht in Hx.
      repeat split; auto.
    + intros (s & t & Hs & Ht & ->). exists s. split; [exact Hs|].
      unfold utcDate, blockTimeMs. rewrite Ht. reflexivity.
  - assert (E : reg_avgTxPerActiveDay r = JS.Number_toFixed 2 average).
    { subst average d r. rewrite Hrec. reflexivity. }
    rewrite E. apply (Number_toFixed_2_nearest average Havg).
  - assert (E : reg_activityRegularityScore r =
                JS.Math_round (Qmin 100 (inject_Z d * 3 + average * 10))).
    { subst average d r. rewrite Hrec. reflexivity. }
    rewrite E. apply Math_round_nearest.
Qed.

End ActivityRegularity.

(* --------------------------------------------------------------------- *)
(*  Feature aggregator and the /risk/recalculate route                    *)
(* --------------------------------------------------------------------- *)
Section FeatureAggregator.
Import SolanaClient StripeOracle Features.

Variable getSignaturesForAddress :
  string -> nat -> option (list SignatureInfo).
Variable getParsedTokenAccountsByOwner :
  string -> option (list TokenAmount).
Variable nowStats nowActivity : Z.

Abbreviation buildFeatures :=
  (Features.buildFeatures getSignaturesForAddress
     getParsedTokenAccountsByOwner nowStats nowActivity).
Abbreviation recalculate :=
  (Features.recalculate getSignaturesForAddress
     getParsedTokenAccountsByOwner nowStats nowActivity).

(** The spread of the income features over the wallet features
    overwrites nothing. *)
Lemma spread_keys_disjoint :
  forall k, In k stripeFeatureKeys -> ~ In k walletFeatureKeys.
Proof.
  intros k Hs Hw. simpl in Hs, Hw.
  repeat (destruct Hs as [<-|Hs];
          [repeat (destruct Hw as [Hw|Hw]; [discriminate Hw|]);
           contradiction|]).
  contradiction.
Qed.

Lemma buildFeatures_inv (wallet : string) (f : WalletFeatures) :
  buildFeatures wallet = Some f ->
  exists sigs1000 accounts sigs500,
    getSignaturesForAddress wallet 1000%nat = Some sigs1000
    /\ getParsedTokenAccountsByOwner wallet = Some accounts
    /\ getSignaturesForAddress wallet 500%nat = Some sigs500
    /\ humanVerified f = false
    /\ successfulRepayments f = 0
    /\ defaults f = 0
    /\ tokenCount f = Z.of_nat (length accounts)
    /\ hasVC f = (tokenCount f >? 0).
Proof.
  unfold Features.buildFeatures. intros H.
  destruct (getSignaturesForAddress wallet 1000%nat) as [s1|];
    [|discriminate].
  destruct (getParsedTokenAccountsByOwner wallet) as [acc|];
    [|discriminate].
  destruct (getSignaturesForAddress wallet 500%nat) as [s5|];
    [|discriminate].
  simpl in H. injection H as <-.
  exists s1, acc, s5. simpl. repeat split; reflexivity.
Qed.

(** With the three constant fields, the score is the base plus the
    four chain-derived bonuses and the regularity bonus; the clamp is
    never reached. *)
Lemma computeTigerScore_built (f : WalletFeatures) :
  humanVerified f = false ->
  successfulRepayments f = 0 ->
  defaults f = 0 ->
  Scoring.computeTigerScore f =
  300
  + (if walletAgeDays f >? 180 then 40 else 0)
  + (if txCount f >? 100 then 40 else 0)
  + (if nftCount f >? 0 then 20 else 0)
  + (if hasVC f then 30 else 0)
  + (match activityRegularityScore f with
     | Some a => if a >? 40 then 40 else 0
     | None => 0
     end).
Proof.
  intros Hh Hr Hd.
  rewrite computeTigerScore_clamp_then_bonus.
  unfold Scoring.sumBeforeBonus, Scoring.additiveSum, Scoring.clamp.
  rewrite Hh, Hr, Hd.
  destruct (walletAgeDays f >? 180), (txCount f >? 100),
    (nftCount f >? 0), (hasVC f), (activityRegularityScore f) as [a|];
    try destruct (a >? 40); lia.
Qed.

(** C10.  Every feature record built by the aggregator has
    humanVerified = false, successfulRepayments = 0, defaults = 0 and
    hasVC = (tokenCount > 0), tokenCount being the number of token
    accounts of the wallet.  Hence a score answered by /risk/recalculate
    is 300 plus the wallet-age, transaction-count, NFT and regularity
    bonuses, plus 30 exactly when the wallet holds a token account: no
    human-verification, repayment or default term occurs in it. *)
Theorem recalculate_score_terms :
  (forall wallet f,
      buildFeatures wallet = Some f ->
      humanVerified f = false
      /\ successfulRepayments f = 0
      /\ defaults f = 0
      /\ hasVC f = (tokenCount f >? 0))
  /\ (forall body wallet score tier features,
        recalculate body = Status200 wallet score tier features ->
        let f := merged_wallet features in
        exists accounts,
          getParsedTokenAccountsByOwner wallet = Some accounts
          /\ score =
             300
             + (if walletAgeDays f >? 180 then 40 else 0)
             + (if txCount f >? 100 then 40 else 0)
             + (if nftCount f >? 0 then 20 else 0)
             + (if (0 <? length accounts)%nat then 30 else 0)
             + (match activityRegularityScore f with
                | Some a => if a >? 40 then 40 else 0
                | None => 0
                end)).
Proof.
  split.
  - intros wallet f H.
    destruct (buildFeatures_inv wallet f H)
      as (_ & _ & _ & _ & _ & _ & Hh & Hr & Hd & _ & Hvc).
    auto.
  - intros body wallet score tier features H f.
    unfold Features.recalculate in H.
    destruct (body_wallet body) as [w|]; [|discriminate].
    destruct (String.eqb w ""); [discriminate|].
    destruct (buildFeatures w) as [b|] eqn:Hb; [|discriminate].
    injection H as <- <- _ <-.
    destruct (buildFeatures_inv w b Hb)
      as (_ & accounts & _ & _ & Hacc & _ & Hh & Hr & Hd & Htc & Hvc).
    exists accounts. split; [exact Hacc|].
    subst f. simpl merged_wallet.
    rewrite (computeTigerScore_built b Hh Hr Hd), Hvc, Htc.
    replace (Z.of_nat (length accounts) >? 0)
      with (0 <? length accounts)%nat; [reflexivity|].
    destruct (length accounts); reflexivity.
Qed.

(** On this route the score stays between 300 and 470. *)
Lemma recalculate_score_range body wallet score tier features :
  recalculate body = Status200 wallet score tier features ->
  300 <= score <= 470.
Proof.
  intros H.
  unfold Features.recalculate in H.
  destruct (body_wallet body) as [w|]; [|discriminate].
  destruct (String.eqb w ""); [discriminate|].
  destruct (buildFeatures w) as [b|] eqn:Hb; [|discriminate].
  injection H as _ <- _ _.
  destruct (buildFeatures_inv w b Hb)
    as (_ & _ & _ & _ & _ & _ & Hh & Hr & Hd & _ & _).
  rewrite (computeTigerScore_built b Hh Hr Hd).
  destruct (walletAgeDays b >? 180), (txCount b >? 100),
    (nftCount b >? 0), (hasVC b), (activityRegularityScore b) as [a|];
    try destruct (a >? 40); lia.
Qed.

End FeatureAggregator.

Lemma recalculate_score_terms_witness :
  exists features,
    Inputs.demoRecalculate =
    Features.Status200 Inputs.demoWallet 470 "Silver" features
    /\ let f := Features.merged_wallet features in
       exists accounts,
         Some Inputs.demoAccounts = Some accounts
         /\ 470 =
            300
            + (if walletAgeDays f >? 180 then 40 else 0)
            + (if txCount f >? 100 then 40 else 0)
            + (if nftCount f >? 0 then 20 else 0)
            + (if (0 <? length accounts)%nat then 30 else 0)
            + (match activityRegularityScore f with
               | Some a => if a >? 40 then 40 else 0
               | None => 0
               end).
Proof.
  eexists. split.
  - vm_compute. reflexivity.
  - apply (proj2 (recalculate_score_terms
                    (fun _ limit => Some (Inputs.demoSignatures limit))
                    (fun _ => Some Inputs.demoAccounts)
                    (300 * SolanaClient.DAY_MS) (300 * SolanaClient.DAY_MS))
             Inputs.demoBody Inputs.demoWallet 470 "Silver"%string).
    vm_compute. reflexivity.
Defined.

(* --------------------------------------------------------------------- *)
(*  Tier resolver                                                         *)
(* --------------------------------------------------------------------- *)
Section TierResolver.
Import Config Server.

(** The scan returns the entry of greatest index below [n] whose
    threshold the score reaches. *)
Lemma scanTiers_first_match (tiers : list LoanTier) (s : Z) :
  forall (n : nat) (t : LoanTier),
    scanTiers tiers s n = Some t ->
    exists i,
      (i < n)%nat
      /\ nth_error tiers i = Some t
      /\ minTigerScore t <= s
      /\ forall j tj,
           (i < j < n)%nat -> nth_error tiers j = Some tj ->
           s < minTigerScore tj.
Proof.
  induction n as [|n IH]; intros t H; simpl in H; [discriminate|].
  destruct (nth_error tiers n) as [tn|] eqn:En.
  - destruct (Z.geb_spec s (minTigerScore tn)) as [Hge|Hlt].
    + injection H as <-. exists n.
      split; [lia|]. split; [exact En|]. split; [exact Hge|].
      intros j tj Hj. lia.
    + destruct (IH t H) as (i & Hi & Hnth & Hmin & Hmax).
      exists i.
      split; [lia|]. split; [exact Hnth|]. split; [exact Hmin|].
      intros j tj Hj Hnj.
      destruct (Nat.eq_dec j n) as [->|Hne].
      * rewrite En in Hnj. injection Hnj as <-. exact Hlt.
      * apply (Hmax j tj); [lia|exact Hnj].
  - destruct (IH t H) as (i & Hi & Hnth & Hmin & Hmax).
    exists i.
    split; [lia|]. split; [exact Hnth|]. split; [exact Hmin|].
    intros j tj Hj Hnj.
    destruct (Nat.eq_dec j n) as [->|Hne].
    * rewrite En in Hnj. discriminate.
    * apply (Hmax j tj); [lia|exact Hnj].
Qed.

(** On an ascending table the scan is monotone in the score. *)
Lemma scanTiers_monotone (tiers : list LoanTier) (n : nat) :
  ascending tiers ->
  forall s1 s2 t1 t2,
    s1 <= s2 ->
    scanTiers tiers s1 n = Some t1 ->
    scanTiers tiers s2 n = Some t2 ->
    level t1 <= level t2.
Proof.
  intros Hasc s1 s2 t1 t2 Hs H1 H2.
  destruct (scanTiers_first_match _ _ _ _ H1) as (i1 & Hi1 & Hn1 & Hm1 & _).
  destruct (scanTiers_first_match _ _ _ _ H2) as (i2 & Hi2 & Hn2 & _ & Hx2).
  destruct (Nat.le_gt_cases i1 i2) as [Hle|Hgt].
  - apply (Hasc i1 i2 t1 t2 Hle Hn1 Hn2).
  - assert (s2 < minTigerScore t1) by (apply (Hx2 i1 t1); [lia|exact Hn1]).
    lia.
Qed.

Lemma LOAN_TIERS_ascending : ascending LOAN_TIERS.
Proof.
  intros i j ti tj Hij Hi Hj.
  assert (Hi4 : (i < 4)%nat)
    by (apply (proj1 (nth_error_Some LOAN_TIERS i)); congruence).
  assert (Hj4 : (j < 4)%nat)
    by (apply (proj1 (nth_error_Some LOAN_TIERS j)); congruence).
  destruct i as [|[|[|[|?]]]]; try lia;
    destruct j as [|[|[|[|?]]]]; try lia;
    simpl in Hi, Hj; injection Hi as <-; injection Hj as <-;
    simpl; lia.
Qed.

(** Every non-negative score resolves to a tier. *)
Lemma resolveTier_total (s : Z) :
  0 <= s -> exists t, resolveTier s = Some t.
Proof.
  intros Hs. unfold resolveTier. simpl.
  repeat match goal with
    | |- context [if ?x >=? ?y then _ else _] =>
        destruct (Z.geb_spec x y); [eauto|]
    end.
  lia.
Qed.

(** C3.  Tier resolution over LOAN_TIERS is monotone: of two scores
    s1 <= s2 that both resolve to a tier, the first resolves to a level
    no greater than the second. *)
Theorem tier_resolution_monotone (s1 s2 : Z) (t1 t2 : LoanTier) :
  s1 <= s2 ->
  resolveTier s1 = Some t1 ->
  resolveTier s2 = Some t2 ->
  level t1 <= level t2.
Proof.
  unfold resolveTier. apply scanTiers_monotone, LOAN_TIERS_ascending.
Qed.

Lemma tier_resolution_monotone_witness :
  250 <= 450
  /\ (exists t1 t2,
        resolveTier 250 = Some t1 /\ resolveTier 450 = Some t2
        /\ level t1 = 1 /\ level t2 = 2 /\ level t1 <= level t2).
Proof.
  split; [lia|].
  eexists. eexists.
  split; [reflexivity|]. split; [reflexivity|].
  split; [reflexivity|]. split; [reflexivity|].
  apply (tier_resolution_monotone 250 450); [lia|reflexivity|reflexivity].
Defined.

End TierResolver.

(* --------------------------------------------------------------------- *)
(*  Eligibility calculator                                                *)
(* --------------------------------------------------------------------- *)
Section Eligibility.
Import Config LoanProgram Server.

(** Half of an integer, rounded down, is its quotient by two. *)
Lemma floor_half (s : Z) : Qfloor (inject_Z s * (1 # 2)) = s / 2.
Proof.
  rewrite (Zdiv_Qdiv s 2). apply Qfloor_comp.
  unfold Qdiv. apply Qmult_comp; reflexivity.
Qed.

Lemma getVerifiedIncome_verified (p : UserProfile) :
  humanVerifiedVcHash p <> None ->
  getVerifiedIncome (Some p) = Z.min (200 + tigerScore p / 2) 10000.
Proof.
  intros H. unfold getVerifiedIncome, JS.Math_floor.
  destruct (humanVerifiedVcHash p); [|contradiction].
  rewrite <- floor_half. f_equal. f_equal.
  apply Qfloor_comp, Qmult_comp; reflexivity.
Qed.

Lemma getVerifiedIncome_range (p : option UserProfile) :
  (forall q, p = Some q -> 0 <= tigerScore q) ->
  0 <= getVerifiedIncome p <= 10000.
Proof.
  intros H. destruct p as [q|]; [|simpl; lia].
  destruct (humanVerifiedVcHash q) eqn:E.
  - rewrite getVerifiedIncome_verified by congruence.
    specialize (H q eq_refl).
    assert (0 <= tigerScore q / 2) by (apply Z.div_pos; lia).
    lia.
  - unfold getVerifiedIncome. rewrite E. lia.
Qed.

(** C9.  The verified income of a profile without a verification hash
    (and of an absent profile) is 0; with a hash it is
    min(200 + floor(trustScore * 0.5), 10000); a verified profile with
    trust score 250 has verified income 325. *)
Theorem getVerifiedIncome_spec :
  getVerifiedIncome None = 0
  /\ (forall p,
        humanVerifiedVcHash p = None -> getVerifiedIncome (Some p) = 0)
  /\ (forall p,
        humanVerifiedVcHash p <> None ->
        getVerifiedIncome (Some p) =
        Z.min (200 + Qfloor (inject_Z (tigerScore p) * (1 # 2))) 10000)
  /\ (forall p,
        humanVerifiedVcHash p <> None ->
        tigerScore p = 250 ->
        getVerifiedIncome (Some p) = 325).
Proof.
  split; [reflexivity|]. split; [|split].
  - intros p H. unfold getVerifiedIncome. rewrite H. reflexivity.
  - intros p H. rewrite floor_half. apply getVerifiedIncome_verified, H.
  - intros p H Hs. rewrite (getVerifiedIncome_verified p H), Hs.
    reflexivity.
Qed.

Lemma getVerifiedIncome_spec_witness :
  getVerifiedIncome (Some (LoanInputs.unverifiedProfile 250)) = 0
  /\ getVerifiedIncome (Some (LoanInputs.verifiedProfile 250)) = 325.
Proof.
  split.
  - apply (proj1 (proj2 getVerifiedIncome_spec)). reflexivity.
  - apply (proj2 (proj2 (proj2 getVerifiedIncome_spec)));
      [discriminate | reflexivity].
Defined.

End Eligibility.

(* --------------------------------------------------------------------- *)
(*  Doubles                                                               *)
(* --------------------------------------------------------------------- *)
Section Doubles.
Import Config LoanProgram Server.

Lemma agreesBelow_spec (c : spec_float) (q : Q) (bound : Z) :
  Double.agreesBelow c q bound = true ->
  forall n, 0 <= n < bound ->
            Double.floorOfProduct n c = Some (Qfloor (inject_Z n * q)).
Proof.
  unfold Double.agreesBelow. intros H n Hn.
  rewrite forallb_forall in H.
  specialize (H (Z.to_nat n)).
  rewrite Z2Nat.id in H by lia.
  assert (Hin : In (Z.to_nat n) (List.seq 0 (Z.to_nat bound)))
    by (apply in_seq; lia).
  specialize (H Hin).
  destruct (Double.floorOfProduct n c) as [z|]; [|discriminate].
  apply Z.eqb_eq in H. now subst.
Qed.

(** X29.  For every trust score in [0, 1000] the binary64 computation
    [Math.floor(score * 0.8)] of the score-based limit gives the exact
    floor of 8 score / 10: the rounding of the product never crosses
    an integer. *)
Lemma scoreBasedLimit_double (score : Z) :
  0 <= score <= 1000 ->
  Double.floorOfProduct score Double.lit_0_8 = Some (scoreBasedLimit score).
Proof.
  intros H. apply (agreesBelow_spec _ _ 1001); [vm_compute; reflexivity|lia].
Qed.

(** X30.  For every verified income in [0, 10000] the binary64
    computation [Math.floor(income * 0.3)] of the income-based limit
    gives the exact floor of 3 income / 10. *)
Lemma incomeBasedLimit_double (income : Z) :
  0 <= income <= 10000 ->
  Double.floorOfProduct income Double.lit_0_3
  = Some (incomeBasedLimit income).
Proof.
  intros H. apply (agreesBelow_spec _ _ 10001); [vm_compute; reflexivity|lia].
Qed.

(** For every trust score in [0, 1000] the double computation
    [Math.floor(score * 0.5)] is the exact floor. *)
Lemma scoreBonus_double (score : Z) :
  0 <= score <= 1000 ->
  Double.floorOfProduct score Double.lit_0_5
  = Some (JS.Math_floor (inject_Z score * (5 # 10))).
Proof.
  intros H. apply (agreesBelow_spec _ _ 1001); [vm_compute; reflexivity|lia].
Qed.

End Doubles.

(* --------------------------------------------------------------------- *)
(*  Fixed-point rendering                                                 *)
(* --------------------------------------------------------------------- *)
Section FixedPoint.






End FixedPoint.

(* --------------------------------------------------------------------- *)
(*  Decision pipeline                                                     *)
(* --------------------------------------------------------------------- *)
Section DecisionPipeline.
Import Config LoanProgram Server.

Variable PublicKey : Type.
Variable newPublicKey : JS.value -> option PublicKey.
Variable getUserProfile : PublicKey -> option UserProfile.
Variable loanAccountsOf : PublicKey -> list LoanAccount.
Variable random : Q.
Variable now : Z.

Abbreviation applyForLoan :=
  (Server.applyForLoan PublicKey newPublicKey getUserProfile
     loanAccountsOf random now).
Abbreviation processApplication :=
  (Server.processApplication PublicKey getUserProfile loanAccountsOf
     random now).

Lemma inject_Z_min (a b : Z) :
  inject_Z (Z.min a b) == Qmin (inject_Z a) (inject_Z b).
Proof.
  destruct (Z.le_ge_cases a b) as [H|H].
  - rewrite Z.min_l by exact H. symmetry. apply Q.min_l.
    rewrite <- Zle_Qle. exact H.
  - rewrite Z.min_r by exact H. symmetry. apply Q.min_r.
    rewrite <- Zle_Qle. exact H.
Qed.

Lemma propertyOf_truthy (v : JS.value) :
  propertyTruthy (propertyOf v) = true -> JS.truthy v = true.
Proof.
  destruct v as [| |b|q|s]; simpl; try discriminate.
  destruct (String.eqb_spec s "") as [->|Hne]; simpl; [|reflexivity].
  vm_compute. discriminate.
Qed.

(** A request that passes input validation enters the pipeline. *)
Lemma applyForLoan_valid (body : ApplyBody) (amount : Q) (key : PublicKey) :
  JS.truthy (walletAddress body) = true ->
  loanAmount body = JS.Num amount ->
  (0 < amount)%Q ->
  propertyTruthy (propertyOf (body_repaymentTerm body)) = true ->
  newPublicKey (walletAddress body) = Some key ->
  applyForLoan body = processApplication body amount key.
Proof.
  intros Hw Ha Hpos Ht Hk. unfold Server.applyForLoan.
  rewrite Hw, Ha, (propertyOf_truthy _ Ht), Ht, Hk. simpl.
  assert (Hne : Qeq_bool amount 0 = false).
  { destruct (Qeq_bool amount 0) eqn:E; [|reflexivity].
    apply Qeq_bool_eq in E. rewrite E in Hpos.
    exfalso. revert Hpos. apply Qlt_irrefl. }
  assert (Hle : Qle_bool amount 0 = false).
  { destruct (Qle_bool amount 0) eqn:E; [|reflexivity].
    apply Qle_bool_iff in E. exfalso. revert Hpos. apply Qle_not_lt, E. }
  rewrite Hne, Hle. reflexivity.
Qed.

(** Every answer other than a 400 comes out of the pipeline, for a
    positive amount and a well-formed wallet key. *)
Lemma applyForLoan_inv (body : ApplyBody) (r : LoanResponse) :
  applyForLoan body = r ->
  (exists reason, r = BadRequest reason)
  \/ (exists amount key,
        loanAmount body = JS.Num amount
        /\ (0 < amount)%Q
        /\ newPublicKey (walletAddress body) = Some key
        /\ r = processApplication body amount key).
Proof.
  unfold Server.applyForLoan. intros <-.
  destruct (negb (JS.truthy (walletAddress body))
            || negb (JS.truthy (loanAmount body))
            || negb (JS.truthy (body_repaymentTerm body)));
    [left; eauto|].
  destruct (loanAmount body) as [| |b|amount|s]; try (left; eauto; fail).
  destruct (Qle_bool amount 0) eqn:Hle; [left; eauto|].
  destruct (negb (propertyTruthy (propertyOf (body_repaymentTerm body))));
    [left; eauto|].
  destruct (newPublicKey (walletAddress body)) as [key|]; [|left; eauto].
  right. exists amount, key. repeat split.
  apply Qnot_le_lt. intros H. apply Qle_bool_iff in H. congruence.
Qed.

(** C4.  Every approval is for the least of the requested amount, the
    loan limit of the resolved tier, floor(trustScore * 0.8) and
    floor(verifiedIncome * 0.3); in particular the approved amount
    never exceeds the requested one. *)
Theorem approved_amount_is_min (body : ApplyBody) (terms : ProposedTerms) :
  applyForLoan body = Approved terms ->
  exists amount key profile tier,
    loanAmount body = JS.Num amount
    /\ newPublicKey (walletAddress body) = Some key
    /\ getUserProfile key = Some profile
    /\ resolveTier (tigerScore profile) = Some tier
    /\ requestedAmount terms = amount
    /\ approvedAmount terms ==
       Qmin amount
         (Qmin (inject_Z (maxLoanLimit tier))
            (Qmin
               (inject_Z (Qfloor (inject_Z (tigerScore profile) * (8 # 10))))
               (inject_Z
                  (Qfloor
                     (inject_Z (getVerifiedIncome (Some profile))
                      * (3 # 10))))))
    /\ (approvedAmount terms <= requestedAmount terms)%Q.
Proof.
  intros H.
  destruct (applyForLoan_inv body _ H)
    as [[reason Hbad]|(amount & key & Ha & Hpos & Hk & Hp)];
    [discriminate|].
  unfold Server.processApplication in Hp.
  destruct (getUserProfile key) as [profile|] eqn:Hprof; [|discriminate].
  destruct (resolveTier (tigerScore profile)) as [tier|] eqn:Htier;
    [|discriminate].
  cbv zeta in Hp.
  set (income := getVerifiedIncome (Some profile)) in *.
  destruct (income <? MIN_REQUIRED_INCOME_PROOF); [discriminate|].
  destruct (JS.gt _ (maxDtiRatio tier)); [discriminate|].
  destruct (_ >=? loanApplicationVelocityLimit tier); [discriminate|].
  destruct (JS.gt amount _ && _); [discriminate|].
  injection Hp as ->.
  exists amount, key, profile, tier.
  repeat (split; [assumption || reflexivity|]).
  cbn [approvedAmount requestedAmount proposeTerms].
  unfold JS.Math_min, maxApprovedLoanAmount, scoreBasedLimit,
    incomeBasedLimit, JS.Math_floor.
  split; [|apply Q.le_min_l].
  rewrite !inject_Z_min, <- Q.min_assoc. reflexivity.
Qed.

(** The requests that reach the tier-dependent gates. *)
Variable body : ApplyBody.
Variable amount : Q.
Variable key : PublicKey.
Variable profile : UserProfile.
Variable tier : LoanTier.

Hypothesis wallet_present : JS.truthy (walletAddress body) = true.
Hypothesis amount_number : loanAmount body = JS.Num amount.
Hypothesis amount_positive : (0 < amount)%Q.
Hypothesis term_supported :
  propertyTruthy (propertyOf (body_repaymentTerm body)) = true.
Hypothesis wallet_well_formed :
  newPublicKey (walletAddress body) = Some key.
Hypothesis profile_found : getUserProfile key = Some profile.
Hypothesis tier_resolved : resolveTier (tigerScore profile) = Some tier.
Hypothesis income_sufficient :
  MIN_REQUIRED_INCOME_PROOF <= getVerifiedIncome (Some profile).

(** The pipeline from the debt-to-income gate on. *)
Lemma applyForLoan_after_income_gate :
  applyForLoan body =
  let income := getVerifiedIncome (Some profile) in
  let debt := outstandingDebt (getOutstandingLoans (loanAccountsOf key)) in
  let currentDti := (debt / inject_Z income)%Q in
  if JS.gt currentDti (maxDtiRatio tier) then
    Declined HighDebtToIncome (dtiMessage currentDti tier)
  else
    let recentApplications := JS.Math_floor (random * 3) in
    if recentApplications >=? loanApplicationVelocityLimit tier then
      Declined VelocityExceeded
        [JS.Lit "Too many recent loan applications (";
         JS.Interp (inject_Z recentApplications);
         JS.Lit "). Please wait before applying again."]
    else
      let maxAmount :=
        maxApprovedLoanAmount tier (tigerScore profile) income in
      if JS.gt amount (inject_Z maxAmount) && (maxAmount <? 10) then
        Declined AmountTooLow
          [JS.Lit "Requested amount ($";
           JS.Interp amount;
           JS.Lit ") exceeds maximum approved amount ($";
           JS.Interp (inject_Z maxAmount);
           JS.Lit "). Please build your TigerScore first."]
      else
        Approved
          (proposeTerms now body amount profile tier income debt
             currentDti maxAmount).
Proof.
  rewrite (applyForLoan_valid body amount key wallet_present amount_number
             amount_positive term_supported wallet_well_formed).
  unfold Server.processApplication.
  rewrite profile_found, tier_resolved. cbv zeta.
  destruct (Z.ltb_spec (getVerifiedIncome (Some profile))
              MIN_REQUIRED_INCOME_PROOF) as [Hlt|_]; [lia|].
  reflexivity.
Qed.



Hypothesis dti_within_ceiling :
  (outstandingDebt (getOutstandingLoans (loanAccountsOf key))
   / inject_Z (getVerifiedIncome (Some profile))
   <= maxDtiRatio tier)%Q.
Hypothesis velocity_within_limit :
  JS.Math_floor (random * 3) < loanApplicationVelocityLimit tier.

(** C6 (amended).  When the maximum eligible amount is below the floor
    of 10, a request above the maximum eligible amount is declined as
    too low, and a positive request not above it is approved in
    full. *)
Theorem amount_floor_gate :
  let maxEligibleAmount :=
    maxApprovedLoanAmount tier (tigerScore profile)
      (getVerifiedIncome (Some profile)) in
  maxEligibleAmount < 10 ->
  ((inject_Z maxEligibleAmount < amount)%Q ->
   declinedAt AmountTooLow (applyForLoan body))
  /\ ((amount <= inject_Z maxEligibleAmount)%Q ->
      exists terms,
        applyForLoan body = Approved terms
        /\ approvedAmount terms == amount).
Proof.
  intros maxEligibleAmount Hfloor.
  pose proof applyForLoan_after_income_gate as E. cbv zeta in E.
  fold maxEligibleAmount in E.
  rewrite (proj2 (gt_false_iff _ _) dti_within_ceiling) in E.
  destruct (Z.geb_spec (JS.Math_floor (random * 3))
              (loanApplicationVelocityLimit tier)) as [Hge|_]; [lia|].
  destruct (Z.ltb_spec maxEligibleAmount 10) as [_|Hge]; [|lia].
  rewrite andb_true_r in E.
  split.
  - intros Hgt. apply gt_iff in Hgt. rewrite Hgt in E.
    unfold declinedAt. eauto.
  - intros Hle. apply gt_false_iff in Hle. rewrite Hle in E.
    eexists. split; [exact E|].
    cbn [approvedAmount proposeTerms]. unfold JS.Math_min.
    apply Q.min_l. apply gt_false_iff, Hle.
Qed.

End DecisionPipeline.

(* --------------------------------------------------------------------- *)
(*  The pipeline on the reference borrowers                               *)
(* --------------------------------------------------------------------- *)
Section ReferenceBorrowers.
Import Config LoanProgram Server LoanInputs.

Ltac by_evaluation := vm_compute; first [reflexivity | discriminate].

(** Score 250, income 325, debt 40, request 100: approved for 97. *)
Lemma approved_amount_is_min_witness :
  exists terms,
    LoanInputs.submit 250 40000000 100 = Approved terms
    /\ approvedAmount terms == 97
    /\ (approvedAmount terms <= requestedAmount terms)%Q.
Proof.
  eexists. split; [vm_compute; reflexivity|].
  split; [reflexivity|].
  match goal with
  | |- (approvedAmount ?t <= _)%Q =>
      destruct (approved_amount_is_min string parseKey
                  (fun _ => Some (verifiedProfile 250))
                  (fun _ => [activeLoan 40000000])
                  0%Q 1700000000000 (request 100) t)
        as (a & k & p & ti & _ & _ & _ & _ & _ & _ & Hle)
  end; [by_evaluation | exact Hle].
Defined.


(** C6 (as stated).  Score 10 gives a maximum eligible amount of 8; a
    request for 5 is nevertheless approved, for 5. *)
Lemma amountFloorAsSpecified_fails :
  (exists terms,
      LoanInputs.submit 10 0 5 = Approved terms
      /\ approvedAmount terms == 5)
  /\ ~ amountFloorAsSpecified 10 0 5.
Proof.
  split.
  - eexists. split; [vm_compute; reflexivity | reflexivity].
  - intros H.
    destruct (H tier0) as [reason Hr]; [by_evaluation..|].
    vm_compute in Hr. discriminate Hr.
Qed.

(** Score 10, maximum eligible amount 8: a request for 100000 is
    declined as too low, a request for 5 approved in full. *)
Lemma amount_floor_gate_witness :
  declinedAt AmountTooLow (LoanInputs.submit 10 0 100000)
  /\ exists terms,
       LoanInputs.submit 10 0 5 = Approved terms
       /\ approvedAmount terms == 5.
Proof.
  split.
  - destruct (amount_floor_gate string parseKey
                (fun _ => Some (verifiedProfile 10))
                (fun _ => [activeLoan 0])
                0%Q 1700000000000 (request 100000) 100000
                Inputs.demoWallet (verifiedProfile 10) tier0)
      as [Hdecl _]; [by_evaluation..|].
    apply Hdecl. by_evaluation.
  - destruct (amount_floor_gate string parseKey
                (fun _ => Some (verifiedProfile 10))
                (fun _ => [activeLoan 0])
                0%Q 1700000000000 (request 5) 5
                Inputs.demoWallet (verifiedProfile 10) tier0)
      as [_ Happr]; [by_evaluation..|].
    apply Happr. by_evaluation.
Defined.

End ReferenceBorrowers.

(* ===================================================================== *)
(*  Part III.  Further properties of the code                             *)
(* ===================================================================== *)

(* --------------------------------------------------------------------- *)
(*  Score engine                                                          *)
(* --------------------------------------------------------------------- *)
Section ScoreEngineHistory.
Import Scoring History.

Lemma clamp_monotone (lo hi x y : Z) :
  x <= y -> clamp lo hi x <= clamp lo hi y.
Proof. unfold clamp. lia. Qed.

(** X2.  The score never falls when repayments are added and never
    rises when defaults are added: with every other feature unchanged,
    r1 <= r2 and d2 <= d1 give score(r1, d1) <= score(r2, d2). *)
Theorem computeTigerScore_monotone_history
    (f : WalletFeatures) (r1 r2 d1 d2 : Z) :
  r1 <= r2 -> d2 <= d1 ->
  computeTigerScore (withHistory f r1 d1)
  <= computeTigerScore (withHistory f r2 d2).
Proof.
  intros Hr Hd.
  rewrite !computeTigerScore_clamp_then_bonus.
  apply Z.add_le_mono_r, clamp_monotone.
  unfold sumBeforeBonus, additiveSum, withHistory; simpl.
  lia.
Qed.

Lemma computeTigerScore_monotone_history_witness :
  computeTigerScore (withHistory Inputs.defaultedThrice 0 3)
  <= computeTigerScore (withHistory Inputs.defaultedThrice 2 1).
Proof.
  apply computeTigerScore_monotone_history; lia.
Defined.

End ScoreEngineHistory.

(* --------------------------------------------------------------------- *)
(*  Chain statistics                                                      *)
(* --------------------------------------------------------------------- *)
Section ChainStatistics.
Import SolanaClient.

(** X3.  The transaction count is the number of signatures received.
    The wallet age is 0 when there is no signature or when the last
    (oldest) one has no block time; otherwise it is the number of whole
    days between that block time and the clock. *)
Theorem getWalletTxStats_age (now : Z) (sigs : list SignatureInfo) :
  let r := getWalletTxStats now sigs in
  stats_txCount r = Z.of_nat (length sigs)
  /\ (sigs = [] -> stats_walletAgeDays r = 0)
  /\ (forall s,
        last sigs = Some s ->
        blockTime s = None \/ blockTime s = Some 0 ->
        stats_walletAgeDays r = 0)
  /\ (forall s t,
        last sigs = Some s ->
        blockTime s = Some t -> t <> 0 ->
        stats_walletAgeDays r * 86400000 <= now - t * 1000
        /\ now - t * 1000 < (stats_walletAgeDays r + 1) * 86400000).
Proof.
  unfold getWalletTxStats; simpl.
  split; [reflexivity|]. split; [|split].
  - intros ->. reflexivity.
  - intros s -> Hs. unfold blockTimeTruthy.
    destruct Hs as [-> | ->]; reflexivity.
  - intros s t -> Ht Hne. unfold blockTimeTruthy, blockTimeMs. rewrite Ht.
    destruct (Z.eqb_spec t 0) as [?|_]; [contradiction|]. simpl negb.
    cbv iota. unfold DAY_MS.
    change (1000 * 60 * 60 * 24) with 86400000.
    pose proof (Z.div_mod (now - t * 1000) 86400000 ltac:(lia)) as Hdm.
    pose proof (Z.mod_pos_bound (now - t * 1000) 86400000 ltac:(lia)).
    lia.
Qed.

Lemma nftCount_le_tokenCount (accounts : list TokenAmount) :
  0 <= assets_nftCount (getTokenAccountStats accounts)
  <= assets_tokenCount (getTokenAccountStats accounts).
Proof.
  unfold getTokenAccountStats; simpl.
  pose proof (List.filter_length_le nftLike accounts). lia.
Qed.

(** X4.  Of the token accounts, the NFT-like ones are never more than
    all of them; a wallet without token accounts has both counts 0, and
    the NFT count is positive exactly when some account has 0 decimals
    and 1 unit. *)
Theorem getTokenAccountStats_counts (accounts : list TokenAmount) :
  let r := getTokenAccountStats accounts in
  assets_tokenCount r = Z.of_nat (length accounts)
  /\ 0 <= assets_nftCount r <= assets_tokenCount r
  /\ (0 < assets_nftCount r <->
      exists a u, In a accounts /\ decimals a = 0
                  /\ uiAmount a = Some u /\ u == 1).
Proof.
  unfold getTokenAccountStats; simpl.
  split; [reflexivity|]. split.
  - apply (nftCount_le_tokenCount accounts).
  - split.
    + intros Hpos.
      destruct (List.filter nftLike accounts) as [|a l] eqn:E;
        [simpl in Hpos; lia|].
      assert (Hin : In a (List.filter nftLike accounts))
        by (rewrite E; left; reflexivity).
      apply List.filter_In in Hin. destruct Hin as [Hin Hnft].
      unfold nftLike in Hnft. apply andb_prop in Hnft.
      destruct Hnft as [Hd Hu].
      destruct (uiAmount a) as [u|] eqn:Eu; [|discriminate].
      exists a, u. repeat split; auto.
      * apply Z.eqb_eq, Hd.
      * apply Qeq_bool_eq, Hu.
    + intros (a & u & Hin & Hd & Hu & H1).
      assert (Hf : In a (List.filter nftLike accounts)).
      { apply List.filter_In. split; [exact Hin|].
        unfold nftLike. rewrite Hd, Hu. simpl.
        apply Qeq_eq_bool, H1. }
      destruct (List.filter nftLike accounts); [contradiction|].
      simpl length. lia.
Qed.

End ChainStatistics.

(* --------------------------------------------------------------------- *)
(*  Activity regularity: bounds                                           *)
(* --------------------------------------------------------------------- *)
Section RegularityBounds.
Import SolanaClient.

Lemma Math_round_ge_int (m : Z) (y : Q) :
  (inject_Z m <= y)%Q -> m <= JS.Math_round y.
Proof.
  intros H. unfold JS.Math_round.
  rewrite <- (Qfloor_Z m). apply Qfloor_resp_le. lra.
Qed.

Lemma Math_round_le_int (m : Z) (y : Q) :
  (y <= inject_Z m)%Q -> JS.Math_round y <= m.
Proof.
  intros H.
  destruct (Math_round_nearest y) as [Hlo _].
  destruct (Z_le_gt_dec (JS.Math_round y) m) as [Hle|Hgt]; [exact Hle|].
  assert (Hq : (inject_Z (m + 1) <= inject_Z (JS.Math_round y))%Q)
    by (rewrite <- Zle_Qle; lia).
  rewrite inject_Z_plus in Hq. change (inject_Z 1) with 1%Q in Hq.
  exfalso. lra.
Qed.

(** The average before rounding, as the source computes it. *)
Lemma regularity_fields (now : Z) (sigs : list SignatureInfo) :
  let r := getActivityRegularity now sigs in
  let n := Z.of_nat (length (recentOf now sigs)) in
  let d := Z.of_nat (size (daysOf (recentOf now sigs))) in
  let average : Q :=
    if d =? 0 then 0%Q else (inject_Z n / inject_Z d)%Q in
  reg_activeDaysLast30 r = d
  /\ reg_avgTxPerActiveDay r = JS.Number_toFixed 2 average
  /\ reg_activityRegularityScore r =
     JS.Math_round (Qmin 100 (inject_Z d * 3 + average * 10)).
Proof. repeat split. Qed.

Lemma regularity_average_bounds (n d : Z) :
  0 <= d <= n ->
  let average : Q :=
    if d =? 0 then 0%Q else (inject_Z n / inject_Z d)%Q in
  (0 <= average)%Q /\ (1 <= d -> (1 <= average)%Q).
Proof.
  intros Hd average. unfold average.
  destruct (Z.eqb_spec d 0) as [->|Hne].
  - split; [apply Qle_refl | lia].
  - assert (Hpos : (0 < inject_Z d)%Q)
      by (change 0%Q with (inject_Z 0); rewrite <- Zlt_Qlt; lia).
    assert (Hle : (inject_Z d <= inject_Z n)%Q)
      by (rewrite <- Zle_Qle; lia).
    split.
    + apply Qle_shift_div_l; [exact Hpos|]. lra.
    + intros _. apply Qle_shift_div_l; [exact Hpos|]. lra.
Qed.

Lemma regularityScore_range (now : Z) (sigs : list SignatureInfo) :
  0 <= reg_activityRegularityScore (getActivityRegularity now sigs) <= 100.
Proof.
  destruct (regularity_fields now sigs) as (_ & _ & Hscore).
  cbv zeta in Hscore. rewrite Hscore.
  pose proof (activeDays_le_filteredCount (recentOf now sigs)) as Hle.
  assert (Hdn : 0 <= Z.of_nat (size (daysOf (recentOf now sigs)))
                <= Z.of_nat (length (recentOf now sigs))) by lia.
  destruct (regularity_average_bounds _ _ Hdn) as [Hnn _].
  split.
  - apply Math_round_ge_int.
    apply Q.min_glb; [discriminate|].
    assert ((0 <= inject_Z (Z.of_nat (size (daysOf (recentOf now sigs)))))%Q)
      by (change 0%Q with (inject_Z 0); rewrite <- Zle_Qle; lia).
    change (inject_Z 0) with 0%Q. lra.
  - apply Math_round_le_int. apply Q.le_min_l.
Qed.

(** X5.  The number of active days is at most the number of signatures
    in the window, which is at most the number received; the score is
    an integer between 0 and 100 and the reported average is not
    negative.  Without a signature in the window (an empty answer, or
    only old or undated ones) all three figures are 0. *)
Theorem getActivityRegularity_bounds (now : Z) (sigs : list SignatureInfo) :
  let r := getActivityRegularity now sigs in
  0 <= reg_activeDaysLast30 r
  /\ reg_activeDaysLast30 r <= Z.of_nat (length (recentOf now sigs))
  /\ (length (recentOf now sigs) <= length sigs)%nat
  /\ 0 <= reg_activityRegularityScore r <= 100
  /\ (0 <= reg_avgTxPerActiveDay r)%Q
  /\ (recentOf now sigs = [] ->
      reg_activeDaysLast30 r = 0
      /\ reg_avgTxPerActiveDay r == 0
      /\ reg_activityRegularityScore r = 0).
Proof.
  intros r.
  destruct (regularity_fields now sigs) as (Hd & Havg & Hscore).
  fold r in Hd, Havg, Hscore.
  pose proof (activeDays_le_filteredCount (recentOf now sigs)) as Hle.
  assert (Hdn : 0 <= Z.of_nat (size (daysOf (recentOf now sigs)))
                <= Z.of_nat (length (recentOf now sigs))) by lia.
  destruct (regularity_average_bounds _ _ Hdn) as [Hnn _].
  split; [lia|]. split; [lia|].
  split; [apply List.filter_length_le|].
  split; [|split].
  - apply regularityScore_range.
  - rewrite Havg.
    destruct (Number_toFixed_2_nearest _ Hnn) as (k & Hk & _ & Hhi).
    rewrite Hk.
    assert (0 <= k).
    { destruct (Z_le_gt_dec 0 k) as [?|Hneg]; [assumption|].
      assert (Hq : (inject_Z k <= inject_Z (-1))%Q)
        by (rewrite <- Zle_Qle; lia).
      change (inject_Z (-1)) with (-1)%Q in Hq. exfalso. lra. }
    apply Qle_shift_div_l; [reflexivity|].
    assert (Hq : (inject_Z 0 <= inject_Z k)%Q)
      by (rewrite <- Zle_Qle; assumption).
    change (inject_Z 0) with 0%Q in Hq. lra.
  - intros Hempty. subst r. unfold getActivityRegularity.
    rewrite Hempty. repeat split.
Qed.

(** X6.  A wallet with d >= 1 active days scores at least
    min(100, 3 d + 10), since it has at least one transaction per active
    day.  Hence eleven active days always earn the regularity bonus of
    the score engine, and thirty active days give the full 100. *)
Theorem getActivityRegularity_lower_bound
    (now : Z) (sigs : list SignatureInfo) :
  let r := getActivityRegularity now sigs in
  let d := reg_activeDaysLast30 r in
  (1 <= d -> Z.min 100 (3 * d + 10) <= reg_activityRegularityScore r)
  /\ (11 <= d ->
      Scoring.regularityBonusApplies
        (Some (reg_activityRegularityScore r)) = true)
  /\ (30 <= d -> reg_activityRegularityScore r = 100).
Proof.
  intros r d.
  destruct (regularity_fields now sigs) as (Hd & _ & Hscore).
  fold r in Hd, Hscore. fold d in Hd.
  pose proof (activeDays_le_filteredCount (recentOf now sigs)) as Hle.
  assert (Hdn : 0 <= d <= Z.of_nat (length (recentOf now sigs))) by lia.
  destruct (regularity_average_bounds _ _ Hdn) as [_ Hone].
  rewrite <- Hd in Hscore.
  destruct (regularityScore_range now sigs) as [_ Hhi]. fold r in Hhi.
  assert (Hlow : 1 <= d ->
                 Z.min 100 (3 * d + 10) <= reg_activityRegularityScore r).
  { intros H1. specialize (Hone H1).
    rewrite Hscore. apply Math_round_ge_int.
    apply Q.min_glb.
    - change 100%Q with (inject_Z 100). rewrite <- Zle_Qle. lia.
    - apply Qle_trans with (inject_Z (3 * d + 10)).
      + rewrite <- Zle_Qle. lia.
      + rewrite inject_Z_plus, inject_Z_mult.
        change (inject_Z 3) with 3%Q. change (inject_Z 10) with 10%Q.
        lra. }
  split; [exact Hlow|]. split.
  - intros H11. specialize (Hlow ltac:(lia)).
    unfold Scoring.regularityBonusApplies.
    destruct (Z.eqb_spec (reg_activityRegularityScore r) 0); [lia|].
    destruct (Z.gtb_spec (reg_activityRegularityScore r) 40); [reflexivity|lia].
  - intros H30. specialize (Hlow ltac:(lia)). lia.
Qed.

Lemma isRecent_inv (now : Z) (s : SignatureInfo) :
  isRecent now s = true ->
  exists t, blockTime s = Some t /\ t <> 0
            /\ now - t * 1000 <= 30 * 86400000.
Proof.
  unfold isRecent, blockTimeTruthy, blockTimeMs, THIRTY_DAYS.
  destruct (blockTime s) as [t|]; [|discriminate].
  intros H. apply andb_prop in H. destruct H as [Hne Hle].
  exists t. split; [reflexivity|]. split.
  - intros ->. discriminate Hne.
  - apply Z.leb_le in Hle. lia.
Qed.

(** X7.  When no signature is dated after the clock, the signatures of
    the 30 x 24 h window fall on at most 31 calendar days, and 31 are
    reached (a window that starts at noon touches 31 dates). *)
Theorem activeDays_at_most_31 (now : Z) (sigs : list SignatureInfo) :
  (forall s t, In s sigs -> blockTime s = Some t -> t * 1000 <= now) ->
  reg_activeDaysLast30 (getActivityRegularity now sigs) <= 31.
Proof.
  intros Hpast.
  destruct (regularity_fields now sigs) as (-> & _ & _).
  assert (Hsub : daysOf (recentOf now sigs)
                 ⊆ list_to_set (seqZ (now / 86400000 - 30) 31)).
  { intros x Hx. unfold daysOf in Hx.
    rewrite elem_of_list_to_set, list_elem_of_In, in_map_iff in Hx.
    destruct Hx as (s & <- & Hin).
    unfold recentOf in Hin. apply List.filter_In in Hin.
    destruct Hin as [Hin Hrec].
    destruct (isRecent_inv now s Hrec) as (t & Ht & _ & Hwin).
    specialize (Hpast s t Hin Ht).
    rewrite elem_of_list_to_set, elem_of_seqZ.
    unfold utcDate, blockTimeMs, DAY_MS. rewrite Ht.
    change (1000 * 60 * 60 * 24) with 86400000.
    assert (H1 : (now - 30 * 86400000) / 86400000
                 <= t * 1000 / 86400000)
      by (apply Z.div_le_mono; lia).
    assert (H2 : t * 1000 / 86400000 <= now / 86400000)
      by (apply Z.div_le_mono; lia).
    replace (now - 30 * 86400000) with (now + (-30) * 86400000) in H1
      by lia.
    rewrite Z.div_add in H1 by lia. lia. }
  apply subseteq_size in Hsub.
  pose proof (size_list_to_set_le (seqZ (now / 86400000 - 30) 31)) as Hlen.
  rewrite length_seqZ in Hlen. lia.
Qed.

Lemma activeDays_at_most_31_witness :
  reg_activeDaysLast30
    (getActivityRegularity MoreInputs.noonOfDay100 MoreInputs.dailyAtNoon)
  = 31
  /\ reg_activeDaysLast30
       (getActivityRegularity MoreInputs.noonOfDay100
          MoreInputs.dailyAtNoon) <= 31.
Proof.
  split; [vm_compute; reflexivity|].
  apply activeDays_at_most_31.
  assert (H : forallb
                (fun s => match blockTime s with
                          | Some t => t * 1000 <=? MoreInputs.noonOfDay100
                          | None => true
                          end) MoreInputs.dailyAtNoon = true)
    by (vm_compute; reflexivity).
  intros s t Hin Ht.
  rewrite forallb_forall in H. specialize (H s Hin).
  rewrite Ht in H. apply Z.leb_le, H.
Defined.

End RegularityBounds.

(* --------------------------------------------------------------------- *)
(*  The /risk/recalculate route: answers                                  *)
(* --------------------------------------------------------------------- *)
Section RecalculateRoute.
Import SolanaClient StripeOracle Features.

Variable getSignaturesForAddress :
  string -> nat -> option (list SignatureInfo).
Variable getParsedTokenAccountsByOwner :
  string -> option (list TokenAmount).
Variable nowStats nowActivity : Z.

Abbreviation buildFeatures' :=
  (Features.buildFeatures getSignaturesForAddress
     getParsedTokenAccountsByOwner nowStats nowActivity).
Abbreviation recalculate' :=
  (Features.recalculate getSignaturesForAddress
     getParsedTokenAccountsByOwner nowStats nowActivity).

Lemma buildFeatures_None (wallet : string) :
  buildFeatures' wallet = None <->
  getSignaturesForAddress wallet 1000%nat = None
  \/ getParsedTokenAccountsByOwner wallet = None
  \/ getSignaturesForAddress wallet 500%nat = None.
Proof.
  unfold Features.buildFeatures.
  destruct (getSignaturesForAddress wallet 1000%nat) as [s1|]; simpl;
    [|tauto].
  destruct (getParsedTokenAccountsByOwner wallet) as [acc|]; simpl;
    [|tauto].
  destruct (getSignaturesForAddress wallet 500%nat) as [s5|]; simpl;
    [|tauto].
  split; [discriminate|]. intros [H|[H|H]]; discriminate.
Qed.

(** X8.  The route answers 400 exactly when the wallet is missing or
    empty, whatever the chain holds; 500 exactly when a wallet is given
    and one of the three chain reads fails; and 200 otherwise.  No
    answer is built from a partial set of reads. *)
Theorem recalculate_status (body : RecalculateBody) :
  ((exists e, recalculate' body = Status400 e) <->
   body_wallet body = None \/ body_wallet body = Some ""%string)
  /\ ((exists e, recalculate' body = Status500 e) <->
      exists w,
        body_wallet body = Some w /\ w <> ""%string
        /\ (getSignaturesForAddress w 1000%nat = None
            \/ getParsedTokenAccountsByOwner w = None
            \/ getSignaturesForAddress w 500%nat = None))
  /\ ((exists w s t f, recalculate' body = Status200 w s t f) <->
      exists w,
        body_wallet body = Some w /\ w <> ""%string
        /\ getSignaturesForAddress w 1000%nat <> None
        /\ getParsedTokenAccountsByOwner w <> None
        /\ getSignaturesForAddress w 500%nat <> None).
Proof.
  unfold Features.recalculate.
  destruct (body_wallet body) as [w|].
  - destruct (String.eqb_spec w "") as [->|Hne].
    + split; [|split].
      * split; eauto.
      * split; [intros [e He]; discriminate|].
        intros (w & Hw & Hn & _). congruence.
      * split; [intros (? & ? & ? & ? & He); discriminate|].
        intros (w & Hw & Hn & _). congruence.
    + pose proof (buildFeatures_None w) as HN.
      destruct (buildFeatures' w) as [b|] eqn:Hb.
      * assert (Hall : getSignaturesForAddress w 1000%nat <> None
                       /\ getParsedTokenAccountsByOwner w <> None
                       /\ getSignaturesForAddress w 500%nat <> None).
        { repeat split; intros Hc; assert (Some b = None) by
            (apply HN; tauto); discriminate. }
        split; [|split].
        -- split; [intros [e He]; discriminate|].
           intros [H|H]; [discriminate|congruence].
        -- split; [intros [e He]; discriminate|].
           intros (w' & Hw & _ & Hf). injection Hw as <-. tauto.
        -- split; [|eauto 10]. intros _. exists w. tauto.
      * assert (Hsome : getSignaturesForAddress w 1000%nat = None
                        \/ getParsedTokenAccountsByOwner w = None
                        \/ getSignaturesForAddress w 500%nat = None)
          by (apply HN; reflexivity).
        split; [|split].
        -- split; [intros [e He]; discriminate|].
           intros [H|H]; [discriminate|congruence].
        -- split; [|eauto]. intros _. exists w. tauto.
        -- split; [intros (? & ? & ? & ? & He); discriminate|].
           intros (w' & Hw & _ & H1 & H2 & H3). injection Hw as <-. tauto.
  - split; [|split].
    + split; eauto.
    + split; [intros [e He]; discriminate|].
      intros (w & Hw & _). discriminate.
    + split; [intros (? & ? & ? & ? & He); discriminate|].
      intros (w & Hw & _). discriminate.
Qed.

(** X9.  The income and debt sent with the request change neither the
    status of the answer nor its wallet, score and tier: two requests
    for the same wallet differ at most in the income features echoed
    back. *)
Theorem recalculate_ignores_income
    (wallet : option string) (income1 debt1 income2 debt2 : option Q) :
  let route :=
    Features.recalculate getSignaturesForAddress
      getParsedTokenAccountsByOwner nowStats nowActivity in
  let r1 :=
    route
      {| body_wallet := wallet; body_monthlyIncome := income1;
         body_debt := debt1 |} in
  let r2 :=
    route
      {| body_wallet := wallet; body_monthlyIncome := income2;
         body_debt := debt2 |} in
  match r1, r2 with
  | Status200 w1 s1 t1 f1, Status200 w2 s2 t2 f2 =>
      w1 = w2 /\ s1 = s2 /\ t1 = t2
      /\ merged_wallet f1 = merged_wallet f2
  | Status400 e1, Status400 e2 => e1 = e2
  | Status500 e1, Status500 e2 => e1 = e2
  | _, _ => False
  end.
Proof.
  unfold Features.recalculate; simpl.
  destruct wallet as [w|]; [|reflexivity].
  destruct (String.eqb w ""); [reflexivity|].
  destruct (buildFeatures' w); [|reflexivity].
  repeat split.
Qed.

(** X10.  A score answered by the route lies between 300 and 470, and
    its tier is "Bronze" or "Silver" - "Silver" exactly from 400 on;
    the route never answers "Gold" or "Platinum". *)
Theorem recalculate_tier_bronze_or_silver
    (body : RecalculateBody) (wallet : string) (score : Z) (tier : string)
    (features : MergedFeatures) :
  recalculate' body = Status200 wallet score tier features ->
  300 <= score <= 470
  /\ (tier = "Bronze"%string \/ tier = "Silver"%string)
  /\ (tier = "Silver"%string <-> 400 <= score).
Proof.
  intros H.
  pose proof (recalculate_score_range _ _ _ _ _ _ _ _ _ H) as Hr.
  assert (Ht : tier = Scoring.getTier score).
  { unfold Features.recalculate in H.
    destruct (body_wallet body) as [w|]; [|discriminate].
    destruct (String.eqb w ""); [discriminate|].
    destruct (buildFeatures' w); [|discriminate].
    injection H as _ <- <- _. reflexivity. }
  split; [exact Hr|]. subst tier. unfold Scoring.getTier.
  destruct (Z.geb_spec score 850); [lia|].
  destruct (Z.geb_spec score 650); [lia|].
  destruct (Z.geb_spec score 400).
  - split; [right; reflexivity|]. split; [intros _; assumption|reflexivity].
  - split; [left; reflexivity|]. split; [discriminate|lia].
Qed.

(** X11.  In every feature record the aggregator builds, the NFT count
    is between 0 and the token count, so a wallet that earns the NFT
    bonus also has hasVC set; the three regularity fields are present
    and the regularity score is between 0 and 100. *)
Theorem buildFeatures_consistent (wallet : string) (f : WalletFeatures) :
  buildFeatures' wallet = Some f ->
  0 <= nftCount f <= tokenCount f
  /\ (0 < nftCount f -> hasVC f = true)
  /\ 0 <= txCount f
  /\ (exists d a s,
        activeDaysLast30 f = Some d
        /\ avgTxPerActiveDay f = Some a
        /\ activityRegularityScore f = Some s
        /\ 0 <= s <= 100).
Proof.
  unfold Features.buildFeatures. intros H.
  destruct (getSignaturesForAddress wallet 1000%nat) as [s1|];
    [|discriminate].
  destruct (getParsedTokenAccountsByOwner wallet) as [acc|];
    [|discriminate].
  destruct (getSignaturesForAddress wallet 500%nat) as [s5|];
    [|discriminate].
  simpl in H. injection H as <-. cbn [nftCount tokenCount hasVC txCount
    activeDaysLast30 avgTxPerActiveDay activityRegularityScore].
  pose proof (nftCount_le_tokenCount acc) as Hn.
  split; [exact Hn|]. split; [|split].
  - intros Hpos. unfold getTokenAccountStats in *. simpl in *.
    destruct (Z.gtb_spec (Z.of_nat (length acc)) 0); [reflexivity|lia].
  - unfold getWalletTxStats; simpl. lia.
  - do 3 eexists. repeat split; try reflexivity;
      apply (regularityScore_range nowActivity s5).
Qed.

End RecalculateRoute.

Lemma recalculate_tier_bronze_or_silver_witness :
  exists features,
    Inputs.demoRecalculate =
    Features.Status200 Inputs.demoWallet 470 "Silver" features
    /\ 300 <= 470 <= 470
    /\ ("Silver"%string = "Bronze"%string \/ "Silver"%string = "Silver"%string)
    /\ ("Silver"%string = "Silver"%string <-> 400 <= 470).
Proof.
  eexists. split.
  - vm_compute. reflexivity.
  - eapply (recalculate_tier_bronze_or_silver
              (fun _ limit => Some (Inputs.demoSignatures limit))
              (fun _ => Some Inputs.demoAccounts)
              (300 * SolanaClient.DAY_MS) (300 * SolanaClient.DAY_MS)
              Inputs.demoBody Inputs.demoWallet 470 "Silver"%string).
    vm_compute. reflexivity.
Defined.

Lemma buildFeatures_consistent_witness :
  exists f,
    Features.buildFeatures
      (fun _ limit => Some (Inputs.demoSignatures limit))
      (fun _ => Some Inputs.demoAccounts)
      (300 * SolanaClient.DAY_MS) (300 * SolanaClient.DAY_MS)
      Inputs.demoWallet = Some f
    /\ 0 <= nftCount f <= tokenCount f.
Proof.
  eexists. split.
  - vm_compute. reflexivity.
  - eapply (fun H => proj1 (buildFeatures_consistent
             (fun _ limit => Some (Inputs.demoSignatures limit))
             (fun _ => Some Inputs.demoAccounts)
             (300 * SolanaClient.DAY_MS) (300 * SolanaClient.DAY_MS)
             Inputs.demoWallet _ H)).
    vm_compute. reflexivity.
Defined.

(* --------------------------------------------------------------------- *)
(*  Helius asset counts                                                   *)
(* --------------------------------------------------------------------- *)
Section HeliusAssets.
Import Helius.

(** X12.  The Helius reader counts every item as a token and the items
    of interface V1_NFT or V2_NFT as NFTs, so 0 <= nftCount <=
    tokenCount; an answer without a result, or without items, gives two
    zeros instead of failing. *)
Theorem getHeliusAssets_counts (data : RpcData) :
  let r := getHeliusAssets data in
  0 <= helius_nftCount r <= helius_tokenCount r
  /\ (result data = None \/ result data = Some None ->
      helius_tokenCount r = 0 /\ helius_nftCount r = 0)
  /\ (forall items,
        result data = Some (Some items) ->
        helius_tokenCount r = Z.of_nat (length items)
        /\ (helius_nftCount r = helius_tokenCount r <->
            forall i, In i items ->
                      interface i = "V1_NFT"%string
                      \/ interface i = "V2_NFT"%string)).
Proof.
  unfold getHeliusAssets; simpl.
  split; [|split].
  - pose proof (List.filter_length_le isNft
                  match result data with
                  | Some (Some items) => items
                  | _ => []
                  end). lia.
  - intros [-> | ->]; split; reflexivity.
  - intros items ->. split; [reflexivity|].
    assert (Hnft : forall i, isNft i = true <->
                             interface i = "V1_NFT"%string
                             \/ interface i = "V2_NFT"%string).
    { intros i. unfold isNft. rewrite orb_true_iff.
      rewrite !String.eqb_eq. reflexivity. }
    split.
    + intros Heq i Hin. apply Hnft.
      assert (Hlen : length (List.filter isNft items) = length items)
        by lia.
      clear Heq. induction items as [|a l IH]; [contradiction|].
      simpl in Hlen. pose proof (List.filter_length_le isNft l) as Hle.
      destruct (isNft a) eqn:Ea; simpl in Hlen; [|lia].
      destruct Hin as [<-|Hin]; [exact Ea|].
      apply IH; [exact Hin|lia].
    + intros Hall. f_equal.
      induction items as [|a l IH]; [reflexivity|].
      simpl. rewrite (proj2 (Hnft a)) by (apply Hall; left; reflexivity).
      simpl. f_equal. apply IH. intros i Hi. apply Hall. right. exact Hi.
Qed.

End HeliusAssets.

(* --------------------------------------------------------------------- *)
(*  Verified income and outstanding debt                                  *)
(* --------------------------------------------------------------------- *)
Section IncomeAndDebt.
Import Config LoanProgram Server.

Lemma getVerifiedIncome_at_least_min (p : UserProfile) :
  humanVerifiedVcHash p <> None ->
  0 <= tigerScore p ->
  MIN_REQUIRED_INCOME_PROOF <= getVerifiedIncome (Some p).
Proof.
  intros Hh Hs. rewrite (getVerifiedIncome_verified p Hh).
  unfold MIN_REQUIRED_INCOME_PROOF. Z.div_mod_to_equations. lia.
Qed.

(** X13.  For a profile with a verification hash and a non-negative
    score, the verified income lies between 200 and 10000, never below
    the minimum income of 100; it does not decrease when the score
    grows, and it reaches the cap of 10000 exactly from score 19600
    on. *)
Theorem getVerifiedIncome_bounds (p : UserProfile) :
  humanVerifiedVcHash p <> None ->
  0 <= tigerScore p ->
  200 <= getVerifiedIncome (Some p) <= 10000
  /\ MIN_REQUIRED_INCOME_PROOF <= getVerifiedIncome (Some p)
  /\ (getVerifiedIncome (Some p) = 10000 <-> 19600 <= tigerScore p)
  /\ (forall q,
        humanVerifiedVcHash q <> None ->
        tigerScore p <= tigerScore q ->
        getVerifiedIncome (Some p) <= getVerifiedIncome (Some q)).
Proof.
  intros Hh Hs.
  rewrite (getVerifiedIncome_verified p Hh).
  unfold MIN_REQUIRED_INCOME_PROOF.
  split; [|split; [|split]].
  - Z.div_mod_to_equations. lia.
  - Z.div_mod_to_equations. lia.
  - Z.div_mod_to_equations. lia.
  - intros q Hq Hle. rewrite (getVerifiedIncome_verified q Hq).
    Z.div_mod_to_equations. lia.
Qed.

Lemma getVerifiedIncome_bounds_witness :
  200 <= getVerifiedIncome (Some (LoanInputs.verifiedProfile 250)) <= 10000.
Proof.
  apply (getVerifiedIncome_bounds (LoanInputs.verifiedProfile 250));
    [discriminate | simpl; lia].
Defined.

(** The sum of the balances, in millionths. *)
Lemma outstandingDebt_sum (loans : list LoanAccount) :
  outstandingDebt loans ==
  inject_Z (foldr Z.add 0 (List.map outstandingAmount loans)) / 1000000.
Proof.
  unfold outstandingDebt.
  assert (G : forall (acc : Q),
             fold_left
               (fun total loan =>
                  (total + inject_Z (outstandingAmount loan) / 1000000)%Q)
               loans acc ==
             acc
             + inject_Z (foldr Z.add 0 (List.map outstandingAmount loans))
               / 1000000).
  { induction loans as [|l loans IH]; intros acc; simpl.
    - change (inject_Z 0) with 0%Q. field.
    - rewrite IH, inject_Z_plus. field. }
  rewrite G. field.
Qed.



End IncomeAndDebt.

(* --------------------------------------------------------------------- *)
(*  Reading the loan accounts of a borrower                               *)
(* --------------------------------------------------------------------- *)
Section LoanAccountsOnChain.
Import Config LoanProgram Server LoanAccounts.

Variable ProgramId PDA : Type.
Variable newProgramId : string -> option ProgramId.
Variable findProgramAddress : ProgramId -> nat -> option PDA.
Variable loanAccountAt : PDA -> option LoanAccount.

Abbreviation findLoanAccountPDAs' :=
  (findLoanAccountPDAs ProgramId PDA newProgramId findProgramAddress).
Abbreviation getOutstandingLoansOf' :=
  (getOutstandingLoansOf ProgramId PDA newProgramId findProgramAddress
     loanAccountAt).

Lemma length_omap_le {A B : Type} (f : A -> option B) (l : list A) :
  (length (omap f l) <= length l)%nat.
Proof.
  induction l as [|a l IH]; csimpl; [lia|].
  destruct (f a); csimpl; lia.
Qed.

Lemma getOutstandingLoansOf_length (programIdVar : option string) :
  (length (getOutstandingLoansOf' programIdVar) <= 10)%nat.
Proof.
  unfold getOutstandingLoansOf, findLoanAccountPDAs.
  destruct programIdVar as [id|]; [|simpl; lia].
  destruct (String.eqb id ""); [simpl; lia|].
  destruct (newProgramId id) as [pid|]; [|simpl; lia].
  unfold getOutstandingLoans.
  pose proof (List.filter_length_le
                (fun loanAccount =>
                   (status loanAccount =? 0)
                   && (outstandingAmount loanAccount >? 0))
                (omap loanAccountAt
                   (omap (findProgramAddress pid) (List.seq 0 10)))).
  pose proof (length_omap_le loanAccountAt
                (omap (findProgramAddress pid) (List.seq 0 10))).
  pose proof (length_omap_le (findProgramAddress pid) (List.seq 0 10)).
  rewrite List.length_seq in *. lia.
Qed.

(** X15.  At most ten loan accounts are looked up, so at most ten
    outstanding loans are found; all of them are active with a positive
    balance.  Without a program id in the environment, or with one that
    is not a public key, the answer is the empty list. *)
Theorem getOutstandingLoansOf_at_most_ten (programIdVar : option string) :
  let loans :=
    getOutstandingLoansOf ProgramId PDA newProgramId findProgramAddress
      loanAccountAt programIdVar in
  (length loans <= 10)%nat
  /\ (forall l, In l loans ->
                status l = 0 /\ 0 < outstandingAmount l)
  /\ (programIdVar = None \/ programIdVar = Some ""%string ->
      loans = [])
  /\ (forall id, programIdVar = Some id -> newProgramId id = None ->
                 loans = []).
Proof.
  intros loans; subst loans.
  split; [apply getOutstandingLoansOf_length|].
  unfold getOutstandingLoansOf, findLoanAccountPDAs.
  split; [|split].
  - intros l Hin.
    destruct programIdVar as [id|]; [|contradiction].
    destruct (String.eqb id ""); [contradiction|].
    destruct (newProgramId id) as [pid|]; [|contradiction].
    unfold getOutstandingLoans in Hin. apply List.filter_In in Hin.
    destruct Hin as [_ Hin]. apply andb_prop in Hin.
    destruct Hin as [H0 H1]. apply Z.eqb_eq in H0.
    rewrite Z.gtb_ltb in H1. apply Z.ltb_lt in H1. tauto.
  - intros [-> | ->]; reflexivity.
  - intros id -> Hid.
    destruct (String.eqb id ""); [reflexivity|]. rewrite Hid. reflexivity.
Qed.

Lemma sum_bounded (loans : list LoanAccount) (b : Z) :
  (forall l, In l loans -> outstandingAmount l <= b) ->
  foldr Z.add 0 (List.map outstandingAmount loans)
  <= Z.of_nat (length loans) * b.
Proof.
  induction loans as [|a l IH]; intros H; simpl foldr; simpl length.
  - lia.
  - assert (outstandingAmount a <= b) by (apply H; left; reflexivity).
    assert (foldr Z.add 0 (List.map outstandingAmount l)
            <= Z.of_nat (length l) * b)
      by (apply IH; intros; apply H; right; assumption).
    lia.
Qed.

(** X16.  With balances in the range of a u64, the outstanding debt of
    a borrower is below 10^15 USDC, so for an income of at least 100
    the percentage written into the debt-to-income message is
    non-negative and below 10^21, the range in which a number is
    rendered in fixed notation. *)
Theorem dti_percentage_in_fixed_range
    (programIdVar : option string) (income : Z) :
  (forall l, In l (getOutstandingLoansOf' programIdVar) ->
             u64 (outstandingAmount l)) ->
  MIN_REQUIRED_INCOME_PROOF <= income ->
  let debt := outstandingDebt (getOutstandingLoansOf' programIdVar) in
  (0 <= debt)%Q
  /\ (debt < inject_Z (10 ^ 15))%Q
  /\ (0 <= debt / inject_Z income * 100)%Q
  /\ (debt / inject_Z income * 100 < inject_Z (10 ^ 21))%Q.
Proof.
  intros Hu Hinc debt.
  pose proof (getOutstandingLoansOf_length programIdVar) as Hlen.
  pose proof (outstandingDebt_sum (getOutstandingLoansOf' programIdVar))
    as Hsum. fold debt in Hsum.
  assert (Hb : foldr Z.add 0
                 (List.map outstandingAmount
                    (getOutstandingLoansOf' programIdVar))
               <= 10 * (2 ^ 64 - 1)).
  { etransitivity.
    - apply (sum_bounded _ (2 ^ 64 - 1)).
      intros l Hl. specialize (Hu l Hl). unfold u64 in Hu. lia.
    - apply Z.mul_le_mono_nonneg_r; lia. }
  assert (Hnn : 0 <= foldr Z.add 0
                       (List.map outstandingAmount
                          (getOutstandingLoansOf' programIdVar))).
  { clear Hb Hsum.
    induction (getOutstandingLoansOf' programIdVar) as [|a l IH];
      simpl; [lia|].
    assert (0 <= outstandingAmount a)
      by (apply (Hu a); left; reflexivity).
    assert (0 <= foldr Z.add 0 (List.map outstandingAmount l)).
    { apply IH; [intros; apply Hu; right; assumption|].
      simpl in Hlen. lia. }
    lia. }
  set (S := foldr Z.add 0
              (List.map outstandingAmount
                 (getOutstandingLoansOf' programIdVar))) in *.
  assert (Hq0 : (inject_Z 0 <= inject_Z S)%Q) by (rewrite <- Zle_Qle; lia).
  assert (Hq1 : (inject_Z S <= inject_Z (10 * (2 ^ 64 - 1)))%Q)
    by (rewrite <- Zle_Qle; lia).
  assert (Hd0 : (0 <= debt)%Q).
  { rewrite Hsum. apply Qle_shift_div_l; [reflexivity|].
    change (inject_Z 0) with 0%Q in Hq0. lra. }
  assert (Hd1 : (debt < inject_Z (10 ^ 15))%Q).
  { rewrite Hsum. apply Qlt_shift_div_r; [reflexivity|].
    apply Qle_lt_trans with (inject_Z (10 * (2 ^ 64 - 1))); [exact Hq1|].
    vm_compute. reflexivity. }
  assert (Hi : (100 <= inject_Z income)%Q).
  { change 100%Q with (inject_Z 100). rewrite <- Zle_Qle.
    unfold MIN_REQUIRED_INCOME_PROOF in Hinc. exact Hinc. }
  assert (Hipos : (0 < inject_Z income)%Q) by lra.
  assert (Hr0 : (0 <= debt / inject_Z income)%Q).
  { apply Qle_shift_div_l; [exact Hipos|]. lra. }
  assert (Hr1 : (debt / inject_Z income <= debt / 100)%Q).
  { apply Qle_shift_div_r; [exact Hipos|].
    assert (Hm : (debt / 100 * inject_Z income
                  == debt * (inject_Z income / 100))%Q) by field.
    rewrite Hm.
    assert (Hone : (1 <= inject_Z income / 100)%Q)
      by (apply Qle_shift_div_l; [reflexivity | lra]).
    assert (Hmul : (debt * 1 <= debt * (inject_Z income / 100))%Q).
    { rewrite !(Qmult_comm debt). apply Qmult_le_compat_r; assumption. }
    lra. }
  assert (Hbig : (inject_Z (10 ^ 15) <= inject_Z (10 ^ 21))%Q)
    by (rewrite <- Zle_Qle; lia).
  assert (Hc : (debt / 100 * 100 == debt)%Q) by field.
  repeat split; try assumption; try lra.
Qed.

End LoanAccountsOnChain.

Lemma dti_percentage_in_fixed_range_witness :
  (0 <= Server.outstandingDebt ChainInputs.outstandingLoans)%Q
  /\ (Server.outstandingDebt ChainInputs.outstandingLoans
      < inject_Z (10 ^ 15))%Q
  /\ Server.outstandingDebt ChainInputs.outstandingLoans == 425 # 10.
Proof.
  destruct (dti_percentage_in_fixed_range string nat
              (fun id => Some id) (fun _ i => Some i) ChainInputs.loanAt
              (Some "LoanProg11111111111111111111111111111111111"%string)
              325) as (H0 & H1 & _).
  - intros l Hl. vm_compute in Hl.
    destruct Hl as [<-|[<-|[]]]; vm_compute; split;
      [discriminate | reflexivity | discriminate | reflexivity].
  - vm_compute. discriminate.
  - split; [exact H0|]. split; [exact H1|]. vm_compute. reflexivity.
Defined.

(* --------------------------------------------------------------------- *)
(*  Tier table                                                            *)
(* --------------------------------------------------------------------- *)
Section TierTable.
Import Config LoanProgram Server.

(** The four outcomes of the scan over LOAN_TIERS. *)
Lemma resolveTier_cases (s : Z) (t : LoanTier) :
  resolveTier s = Some t ->
  (0 <= s < 200 /\ nth_error LOAN_TIERS 0 = Some t)
  \/ (200 <= s < 400 /\ nth_error LOAN_TIERS 1 = Some t)
  \/ (400 <= s < 600 /\ nth_error LOAN_TIERS 2 = Some t)
  \/ (600 <= s /\ nth_error LOAN_TIERS 3 = Some t).
Proof.
  unfold resolveTier; simpl.
  destruct (Z.geb_spec s 600);
    [intros E; injection E as <-; right; right; right; split;
     [assumption|reflexivity]|].
  destruct (Z.geb_spec s 400);
    [intros E; injection E as <-; right; right; left; split;
     [lia|reflexivity]|].
  destruct (Z.geb_spec s 200);
    [intros E; injection E as <-; right; left; split;
     [lia|reflexivity]|].
  destruct (Z.geb_spec s 0);
    [intros E; injection E as <-; left; split; [lia|reflexivity]|].
  discriminate.
Qed.

(** X17.  No tier is resolved exactly for a negative score.  A resolved
    tier is an entry of LOAN_TIERS whose threshold the score reaches,
    and among such entries it has the greatest threshold and the
    greatest level. *)
Theorem resolveTier_greatest_threshold (s : Z) :
  (resolveTier s = None <-> s < 0)
  /\ (forall t,
        resolveTier s = Some t ->
        In t LOAN_TIERS
        /\ minTigerScore t <= s
        /\ (forall t',
              In t' LOAN_TIERS -> minTigerScore t' <= s ->
              minTigerScore t' <= minTigerScore t
              /\ level t' <= level t)).
Proof.
  split.
  - split.
    + intros HN. destruct (Z_lt_ge_dec s 0) as [?|Hge]; [assumption|].
      destruct (resolveTier_total s ltac:(lia)) as [t Ht]. congruence.
    + intros Hneg. unfold resolveTier; simpl.
      repeat match goal with
        | |- context [if ?x >=? ?y then _ else _] =>
            destruct (Z.geb_spec x y); [lia|]
        end.
      reflexivity.
  - intros t Ht. unfold resolveTier in Ht.
    destruct (scanTiers_first_match _ _ _ _ Ht)
      as (i & Hi & Hnth & Hmin & Hmax).
    split; [eapply nth_error_In; eassumption|].
    split; [exact Hmin|].
    intros t' Hin Hle.
    apply In_nth_error in Hin. destruct Hin as [j Hj].
    assert (Hj4 : (j < length LOAN_TIERS)%nat)
      by (apply nth_error_Some; congruence).
    destruct (Nat.le_gt_cases j i) as [Hji|Hij].
    + apply (LOAN_TIERS_ascending j i t' t Hji Hj Hnth).
    + assert (s < minTigerScore t') by (apply (Hmax j t'); [lia|exact Hj]).
      lia.
Qed.

Lemma scoreBasedLimit_div (s : Z) : scoreBasedLimit s = 8 * s / 10.
Proof.
  unfold scoreBasedLimit, JS.Math_floor.
  rewrite (Zdiv_Qdiv (8 * s) 10). apply Qfloor_comp.
  unfold Qdiv, Qeq. simpl. lia.
Qed.

Lemma incomeBasedLimit_div (i : Z) : incomeBasedLimit i = 3 * i / 10.
Proof.
  unfold incomeBasedLimit, JS.Math_floor.
  rewrite (Zdiv_Qdiv (3 * i) 10). apply Qfloor_comp.
  unfold Qdiv, Qeq. simpl. lia.
Qed.

Lemma maxApprovedLoanAmount_below_floor (p : UserProfile) (t : LoanTier) :
  humanVerifiedVcHash p <> None ->
  resolveTier (tigerScore p) = Some t ->
  maxApprovedLoanAmount t (tigerScore p) (getVerifiedIncome (Some p)) < 10
  -> tigerScore p <= 12.
Proof.
  intros Hh Ht. unfold maxApprovedLoanAmount.
  rewrite scoreBasedLimit_div, incomeBasedLimit_div.
  rewrite (getVerifiedIncome_verified p Hh).
  destruct (resolveTier_cases _ _ Ht)
    as [[Hs Hn]|[[Hs Hn]|[[Hs Hn]|[Hs Hn]]]];
    simpl in Hn; injection Hn as <-; simpl;
    intros; Z.div_mod_to_equations; lia.
Qed.

(** X24.  For a profile with a verification hash, the maximum approved
    amount is min(50, floor(0.8 score)) in tier 0 and
    min(1000, floor(0.3 income)) in the tiers 1 to 3.  In tier 1 it
    lies between 90 and 119 and in tier 2 between 120 and 149: the tier
    limits of 150 and 500 are never reached.  It is below the floor of
    10 exactly for the scores up to 12. *)
Theorem maxApprovedLoanAmount_by_tier (p : UserProfile) (t : LoanTier) :
  humanVerifiedVcHash p <> None ->
  resolveTier (tigerScore p) = Some t ->
  let income := getVerifiedIncome (Some p) in
  let m := maxApprovedLoanAmount t (tigerScore p) income in
  (level t = 0 -> m = Z.min 50 (8 * tigerScore p / 10))
  /\ (1 <= level t -> m = Z.min 1000 (3 * income / 10))
  /\ (level t = 1 -> 90 <= m <= 119 /\ m < maxLoanLimit t)
  /\ (level t = 2 -> 120 <= m <= 149 /\ m < maxLoanLimit t)
  /\ (m < 10 <-> tigerScore p <= 12).
Proof.
  intros Hh Ht income m.
  unfold m, maxApprovedLoanAmount, income.
  rewrite scoreBasedLimit_div, incomeBasedLimit_div.
  rewrite (getVerifiedIncome_verified p Hh).
  destruct (resolveTier_cases _ _ Ht)
    as [[Hs Hn]|[[Hs Hn]|[[Hs Hn]|[Hs Hn]]]];
    simpl in Hn; injection Hn as <-; simpl;
    repeat split; intros; try lia;
    Z.div_mod_to_equations; lia.
Qed.

Lemma maxApprovedLoanAmount_by_tier_witness :
  maxApprovedLoanAmount LoanInputs.tier2 450
    (getVerifiedIncome (Some (LoanInputs.verifiedProfile 450))) = 127
  /\ (120 <= 127 <= 149 /\ 127 < 500).
Proof.
  split; [reflexivity|].
  apply (proj1 (proj2 (proj2 (proj2
           (maxApprovedLoanAmount_by_tier
              (LoanInputs.verifiedProfile 450) LoanInputs.tier2
              ltac:(discriminate) eq_refl)))));
    reflexivity.
Defined.

End TierTable.

(* --------------------------------------------------------------------- *)
(*  The loan dashboard                                                    *)
(* --------------------------------------------------------------------- *)
Section DashboardFigures.
Import Config LoanProgram Server Dashboard.

(** X28.  The limit and the rate shown on the dashboard are the loan
    limit and the interest rate of the tier the backend resolves for
    the same score; without a loaded score the page shows the limit of
    the first tier. *)
Theorem dashboard_shows_tier_terms :
  (forall score t,
      resolveTier score = Some t ->
      getMaxLoanAmount (Some score) = maxLoanLimit t
      /\ interestRateLabel score
         = (JS.digits (baseInterestRate t) ++ "%")%string)
  /\ (maxLoanLimit <$> head LOAN_TIERS) = Some (getMaxLoanAmount None).
Proof.
  split; [|reflexivity].
  intros score t Ht.
  unfold getMaxLoanAmount, interestRateLabel.
  destruct (resolveTier_cases _ _ Ht)
    as [[Hs Hn]|[[Hs Hn]|[[Hs Hn]|[Hs Hn]]]];
    simpl in Hn; injection Hn as <-;
    repeat match goal with
      | |- context [if ?x >=? ?y then _ else _] =>
          destruct (Z.geb_spec x y); try lia
      end;
    split; reflexivity.
Qed.

End DashboardFigures.

(* --------------------------------------------------------------------- *)
(*  Decision pipeline: outcomes                                           *)
(* --------------------------------------------------------------------- *)
Section PipelineOutcomes.
Import Config LoanProgram Server.

Variable PublicKey : Type.
Variable newPublicKey : JS.value -> option PublicKey.
Variable getUserProfile : PublicKey -> option UserProfile.
Variable loanAccountsOf : PublicKey -> list LoanAccount.
Variable random : Q.
Variable now : Z.

Abbreviation applyForLoan' :=
  (Server.applyForLoan PublicKey newPublicKey getUserProfile
     loanAccountsOf random now).
Abbreviation processApplication' :=
  (Server.processApplication PublicKey getUserProfile loanAccountsOf
     random now).

Lemma processApplication_not_BadRequest
    (body : ApplyBody) (amount : Q) (key : PublicKey) (reason : JS.template) :
  processApplication' body amount key <> BadRequest reason.
Proof.
  unfold Server.processApplication.
  destruct (getUserProfile key) as [profile|]; [|discriminate].
  destruct (resolveTier (tigerScore profile)) as [tier|]; [|discriminate].
  cbv zeta.
  destruct (_ <? MIN_REQUIRED_INCOME_PROOF); [discriminate|].
  destruct (JS.gt _ (maxDtiRatio tier)); [discriminate|].
  destruct (_ >=? loanApplicationVelocityLimit tier); [discriminate|].
  destruct (JS.gt amount _ && _); discriminate.
Qed.

(** X18.  A request is answered 400 exactly when the wallet address is
    missing or empty, the loan amount is not a positive number, the
    repayment term names no truthy property of REPAYMENT_TERMS, or the
    wallet address is not a public key - whatever the profile, the
    loans and the random draw are. *)
Theorem applyForLoan_validation (body : ApplyBody) :
  (exists reason, applyForLoan' body = BadRequest reason) <->
  JS.truthy (walletAddress body) = false
  \/ (forall a, loanAmount body = JS.Num a -> (a <= 0)%Q)
  \/ propertyTruthy (propertyOf (body_repaymentTerm body)) = false
  \/ newPublicKey (walletAddress body) = None.
Proof.
  split.
  - intros [reason Hbad].
    destruct (JS.truthy (walletAddress body)) eqn:Hw; [|tauto].
    destruct (propertyTruthy (propertyOf (body_repaymentTerm body)))
      eqn:Ht; [|tauto].
    destruct (newPublicKey (walletAddress body)) as [key|] eqn:Hk;
      [|tauto].
    right; left. intros a Ha.
    destruct (Qlt_le_dec 0 a) as [Hpos|Hle]; [|exact Hle].
    rewrite (applyForLoan_valid _ _ _ _ _ _ body a key Hw Ha Hpos Ht Hk)
      in Hbad.
    exfalso. exact (processApplication_not_BadRequest _ _ _ _ Hbad).
  - intros Hcond. unfold Server.applyForLoan.
    destruct (negb (JS.truthy (walletAddress body))
              || negb (JS.truthy (loanAmount body))
              || negb (JS.truthy (body_repaymentTerm body))) eqn:Hf;
      [eauto|].
    apply orb_false_elim in Hf. destruct Hf as [Hf Hterm].
    apply orb_false_elim in Hf. destruct Hf as [Hwal Hamt].
    apply negb_false_iff in Hwal.
    destruct (loanAmount body) as [| |b|a|s] eqn:Ha; eauto.
    destruct (Qle_bool a 0) eqn:Hle; [eauto|].
    destruct (propertyTruthy (propertyOf (body_repaymentTerm body)))
      eqn:Ht; simpl; [|eauto].
    destruct (newPublicKey (walletAddress body)) as [key|] eqn:Hk;
      [|eauto].
    exfalso. destruct Hcond as [H|[H|[H|H]]]; try congruence.
    specialize (H a eq_refl). apply Qle_bool_iff in H. congruence.
Qed.

(** The request passed input validation. *)
Variable body : ApplyBody.
Variable amount : Q.
Variable key : PublicKey.
Hypothesis wallet_present : JS.truthy (walletAddress body) = true.
Hypothesis amount_number : loanAmount body = JS.Num amount.
Hypothesis amount_positive : (0 < amount)%Q.
Hypothesis term_supported :
  propertyTruthy (propertyOf (body_repaymentTerm body)) = true.
Hypothesis wallet_well_formed :
  newPublicKey (walletAddress body) = Some key.

Lemma applyForLoan_is_processApplication :
  applyForLoan' body = processApplication' body amount key.
Proof.
  apply applyForLoan_valid; assumption.
Qed.

(** X19.  For a validated request the profile gate declines exactly
    when the wallet has no profile.  With a profile of non-negative
    score the score gate never declines, and the income gate declines
    exactly when the profile has no verification hash: the minimum
    income of 100 rejects nobody else. *)
Theorem income_gate_is_hash_check :
  (declinedAt ProfileNotFound (applyForLoan' body)
   <-> getUserProfile key = None)
  /\ (forall profile,
        getUserProfile key = Some profile ->
        0 <= tigerScore profile ->
        ~ declinedAt InsufficientScore (applyForLoan' body)
        /\ (declinedAt InsufficientIncome (applyForLoan' body)
            <-> humanVerifiedVcHash profile = None)).
Proof.
  rewrite applyForLoan_is_processApplication.
  unfold Server.processApplication, declinedAt.
  split.
  - destruct (getUserProfile key) as [profile|]; [|split; eauto].
    split; [|discriminate]. intros [reason Hr].
    destruct (resolveTier (tigerScore profile)) as [tier|];
      [|discriminate].
    cbv zeta in Hr.
    destruct (_ <? MIN_REQUIRED_INCOME_PROOF); [discriminate|].
    destruct (JS.gt _ (maxDtiRatio tier)); [discriminate|].
    destruct (_ >=? loanApplicationVelocityLimit tier); [discriminate|].
    destruct (JS.gt amount _ && _); discriminate.
  - intros profile -> Hs.
    destruct (resolveTier_total _ Hs) as [tier ->]. cbv zeta.
    destruct (humanVerifiedVcHash profile) as [h|] eqn:Hh.
    + assert (Hinc : MIN_REQUIRED_INCOME_PROOF
                     <= getVerifiedIncome (Some profile)).
      { apply getVerifiedIncome_at_least_min; [congruence|exact Hs]. }
      destruct (Z.ltb_spec (getVerifiedIncome (Some profile))
                  MIN_REQUIRED_INCOME_PROOF) as [?|_]; [lia|].
      split.
      * intros [reason Hr].
        destruct (JS.gt _ (maxDtiRatio tier)); [discriminate|].
        destruct (_ >=? loanApplicationVelocityLimit tier);
          [discriminate|].
        destruct (JS.gt amount _ && _); discriminate.
      * split; [|discriminate]. intros [reason Hr].
        destruct (JS.gt _ (maxDtiRatio tier)); [discriminate|].
        destruct (_ >=? loanApplicationVelocityLimit tier);
          [discriminate|].
        destruct (JS.gt amount _ && _); discriminate.
    + assert (Hinc : getVerifiedIncome (Some profile) = 0)
        by (unfold getVerifiedIncome; rewrite Hh; reflexivity).
      rewrite Hinc. simpl.
      split; [intros [reason Hr]; discriminate|].
      split; [reflexivity|eauto].
Qed.

End PipelineOutcomes.

(* --------------------------------------------------------------------- *)
(*  Decision pipeline: approvals                                          *)
(* --------------------------------------------------------------------- *)
Section Approvals.
Import Config LoanProgram Server.

Variable PublicKey : Type.
Variable newPublicKey : JS.value -> option PublicKey.
Variable getUserProfile : PublicKey -> option UserProfile.
Variable loanAccountsOf : PublicKey -> list LoanAccount.
Variable random : Q.
Variable now : Z.

Abbreviation applyForLoan'' :=
  (Server.applyForLoan PublicKey newPublicKey getUserProfile
     loanAccountsOf random now).

(** Everything an approval implies about the request and the chain. *)
Lemma applyForLoan_approved_inv (body : ApplyBody) (terms : ProposedTerms) :
  applyForLoan'' body = Approved terms ->
  exists amount key profile tier,
    loanAmount body = JS.Num amount
    /\ (0 < amount)%Q
    /\ propertyTruthy (propertyOf (body_repaymentTerm body)) = true
    /\ newPublicKey (walletAddress body) = Some key
    /\ getUserProfile key = Some profile
    /\ resolveTier (tigerScore profile) = Some tier
    /\ MIN_REQUIRED_INCOME_PROOF <= getVerifiedIncome (Some profile)
    /\ ((amount
         <= inject_Z
              (maxApprovedLoanAmount tier (tigerScore profile)
                 (getVerifiedIncome (Some profile))))%Q
        \/ 10 <= maxApprovedLoanAmount tier (tigerScore profile)
                   (getVerifiedIncome (Some profile)))
    /\ terms =
       proposeTerms now body amount profile tier
         (getVerifiedIncome (Some profile))
         (outstandingDebt (getOutstandingLoans (loanAccountsOf key)))
         (outstandingDebt (getOutstandingLoans (loanAccountsOf key))
          / inject_Z (getVerifiedIncome (Some profile)))
         (maxApprovedLoanAmount tier (tigerScore profile)
            (getVerifiedIncome (Some profile))).
Proof.
  unfold Server.applyForLoan. intros H.
  destruct (negb (JS.truthy (walletAddress body))
            || negb (JS.truthy (loanAmount body))
            || negb (JS.truthy (body_repaymentTerm body)));
    [discriminate|].
  destruct (loanAmount body) as [| |b|amount|s]; try discriminate.
  destruct (Qle_bool amount 0) eqn:Hle; [discriminate|].
  destruct (propertyTruthy (propertyOf (body_repaymentTerm body))) eqn:Ht;
    simpl in H; [|discriminate].
  destruct (newPublicKey (walletAddress body)) as [key|] eqn:Hk;
    [|discriminate].
  unfold Server.processApplication in H.
  destruct (getUserProfile key) as [profile|] eqn:Hprof; [|discriminate].
  destruct (resolveTier (tigerScore profile)) as [tier|] eqn:Htier;
    [|discriminate].
  cbv zeta in H.
  destruct (Z.ltb_spec (getVerifiedIncome (Some profile))
              MIN_REQUIRED_INCOME_PROOF) as [|Hinc]; [discriminate|].
  destruct (JS.gt _ (maxDtiRatio tier)); [discriminate|].
  destruct (_ >=? loanApplicationVelocityLimit tier); [discriminate|].
  assert (Hpos : (0 < amount)%Q).
  { apply Qnot_le_lt. intros Hc. apply Qle_bool_iff in Hc. congruence. }
  destruct (JS.gt amount _) eqn:Hgt.
  - destruct (Z.ltb_spec (maxApprovedLoanAmount tier (tigerScore profile)
                            (getVerifiedIncome (Some profile))) 10)
      as [|Hten]; simpl in H; [discriminate|].
    injection H as <-.
    exists amount, key, profile, tier.
    split; [reflexivity|]. split; [exact Hpos|]. split; [reflexivity|].
    split; [reflexivity|]. split; [exact Hprof|]. split; [exact Htier|].
    split; [exact Hinc|]. split; [right; exact Hten|reflexivity].
  - simpl in H. injection H as <-.
    apply gt_false_iff in Hgt.
    exists amount, key, profile, tier.
    split; [reflexivity|]. split; [exact Hpos|]. split; [reflexivity|].
    split; [reflexivity|]. split; [exact Hprof|]. split; [exact Htier|].
    split; [exact Hinc|]. split; [left; exact Hgt|reflexivity].
Qed.

Lemma resolveTier_In (s : Z) (t : LoanTier) :
  resolveTier s = Some t -> In t LOAN_TIERS.
Proof.
  intros H. unfold resolveTier in H.
  destruct (scanTiers_first_match _ _ _ _ H) as (i & _ & Hnth & _).
  eapply nth_error_In; eassumption.
Qed.

Lemma LOAN_TIERS_limits (t : LoanTier) :
  In t LOAN_TIERS ->
  50 <= maxLoanLimit t <= 1000 /\ 1 <= loanApplicationVelocityLimit t <= 3.
Proof.
  simpl. intros [<-|[<-|[<-|[<-|[]]]]]; simpl; lia.
Qed.

(** X20.  Every approval is for a positive amount, at most the loan
    limit of a tier of LOAN_TIERS and hence at most 1000; it carries
    the level and the interest rate of that tier, and the borrower's
    verified income in it is at least 100. *)
Theorem approved_amount_positive (body : ApplyBody) (terms : ProposedTerms) :
  applyForLoan'' body = Approved terms ->
  (0 < approvedAmount terms)%Q
  /\ (approvedAmount terms <= 1000)%Q
  /\ MIN_REQUIRED_INCOME_PROOF <= borrower_verifiedIncome terms
  /\ exists tier,
       In tier LOAN_TIERS
       /\ tier_level terms = level tier
       /\ terms_interestRate terms = baseInterestRate tier
       /\ (approvedAmount terms <= inject_Z (maxLoanLimit tier))%Q.
Proof.
  intros H.
  destruct (applyForLoan_approved_inv body terms H)
    as (amount & key & profile & tier & _ & Hpos & _ & _ & _ & Ht
        & Hinc & Hmax & ->).
  pose proof (resolveTier_In _ _ Ht) as Hin.
  destruct (LOAN_TIERS_limits tier Hin) as [Hlim _].
  cbn [approvedAmount proposeTerms borrower_verifiedIncome tier_level
       terms_interestRate]. unfold JS.Math_min.
  set (m := maxApprovedLoanAmount tier (tigerScore profile)
              (getVerifiedIncome (Some profile))) in *.
  assert (Hm : m <= maxLoanLimit tier)
    by (unfold m, maxApprovedLoanAmount; lia).
  assert (Hmq : (inject_Z m <= inject_Z (maxLoanLimit tier))%Q)
    by (rewrite <- Zle_Qle; exact Hm).
  assert (Hcap : (inject_Z (maxLoanLimit tier) <= 1000)%Q)
    by (change 1000%Q with (inject_Z 1000); rewrite <- Zle_Qle; lia).
  assert (Hmpos : (0 < inject_Z m)%Q).
  { destruct Hmax as [Hle|Hten].
    - apply Qlt_le_trans with amount; assumption.
    - change 0%Q with (inject_Z 0). rewrite <- Zlt_Qlt. lia. }
  pose proof (Q.le_min_r amount (inject_Z m)) as Hr.
  split; [apply Q.min_glb_lt; assumption|].
  split; [lra|]. split; [exact Hinc|].
  exists tier. repeat split; auto. lra.
Qed.




Lemma prototype_keys_not_own (k : string) :
  In k objectPrototypeKeys -> assoc k REPAYMENT_TERMS = None.
Proof.
  simpl. intros H.
  repeat (destruct H as [<-|H]; [reflexivity|]). contradiction.
Qed.

(** X22.  The term check also lets through the names every object
    inherits, such as "constructor" or "toString".  An approval carries
    no repayment days exactly when the term is such a name, and then it
    carries no interest, no total, no daily payment and no due date
    either. *)
Theorem inherited_term_has_no_figures
    (body : ApplyBody) (terms : ProposedTerms) :
  applyForLoan'' body = Approved terms ->
  (repaymentDays terms = None <->
   exists k, body_repaymentTerm body = JS.Str k
             /\ In k objectPrototypeKeys)
  /\ (repaymentDays terms = None ->
      interestAmount terms = None
      /\ totalRepaymentAmount terms = None
      /\ dailyPayment terms = None
      /\ terms_repaymentDueDate terms = None).
Proof.
  intros H.
  destruct (applyForLoan_approved_inv body terms H)
    as (amount & key & profile & tier & _ & _ & Htruthy & _ & _ & _ & _
        & _ & ->).
  unfold proposeTerms.
  cbn [repaymentDays terms_repaymentDueDate interestAmount
       totalRepaymentAmount dailyPayment].
  split.
  - unfold propertyOf in *.
    destruct (body_repaymentTerm body) as [| |b|q|s]; try discriminate.
    unfold getRepaymentTerm in *.
    destruct (assoc s REPAYMENT_TERMS) as [d0|] eqn:Ha.
    + split; [discriminate|]. intros (k & Hk & Hin).
      injection Hk as <-. rewrite (prototype_keys_not_own s Hin) in Ha.
      discriminate.
    + destruct (existsb (String.eqb s) objectPrototypeKeys) eqn:He;
        [|discriminate].
      split; [|reflexivity]. intros _.
      apply existsb_exists in He. destruct He as (x & Hx & Heq).
      apply String.eqb_eq in Heq. subst x. eauto.
  - destruct (propertyOf (body_repaymentTerm body)); [discriminate| |];
      intros _; repeat split.
Qed.

(** X25.  A request is declined as too low only for a borrower with a
    verification hash whose score is at most 12: from score 13 on the
    maximum approved amount reaches the floor of 10. *)
Theorem amount_too_low_only_for_small_scores (body : ApplyBody) :
  declinedAt AmountTooLow (applyForLoan'' body) ->
  exists key profile,
    newPublicKey (walletAddress body) = Some key
    /\ getUserProfile key = Some profile
    /\ humanVerifiedVcHash profile <> None
    /\ 0 <= tigerScore profile <= 12.
Proof.
  intros [reason H].
  destruct (applyForLoan_inv _ _ _ _ _ _ body _ H)
    as [[r Hbad]|(amount & key & Ha & Hpos & Hk & Hp)]; [discriminate|].
  unfold Server.processApplication in Hp.
  destruct (getUserProfile key) as [profile|] eqn:Hprof; [|discriminate].
  destruct (resolveTier (tigerScore profile)) as [tier|] eqn:Htier;
    [|discriminate].
  cbv zeta in Hp.
  destruct (Z.ltb_spec (getVerifiedIncome (Some profile))
              MIN_REQUIRED_INCOME_PROOF) as [|Hinc]; [discriminate|].
  destruct (JS.gt _ (maxDtiRatio tier)); [discriminate|].
  destruct (_ >=? loanApplicationVelocityLimit tier); [discriminate|].
  destruct (JS.gt amount _ && (_ <? 10)) eqn:Hand; [|discriminate].
  apply andb_prop in Hand. destruct Hand as [_ Hlow].
  apply Z.ltb_lt in Hlow.
  assert (Hh : humanVerifiedVcHash profile <> None).
  { intros Hn. unfold getVerifiedIncome in Hinc. rewrite Hn in Hinc.
    unfold MIN_REQUIRED_INCOME_PROOF in Hinc. lia. }
  exists key, profile. repeat split; auto.
  - destruct (resolveTier_cases _ _ Htier)
      as [[Hs _]|[[Hs _]|[[Hs _]|[Hs _]]]]; lia.
  - apply (maxApprovedLoanAmount_below_floor profile tier Hh Htier Hlow).
Qed.

End Approvals.

(* --------------------------------------------------------------------- *)
(*  Decision pipeline: the velocity gate                                  *)
(* --------------------------------------------------------------------- *)
Section VelocityGate.
Import Config LoanProgram Server.

Variable PublicKey : Type.
Variable newPublicKey : JS.value -> option PublicKey.
Variable getUserProfile : PublicKey -> option UserProfile.
Variable loanAccountsOf : PublicKey -> list LoanAccount.
Variable random : Q.
Variable now : Z.

Abbreviation applyForLoan3 :=
  (Server.applyForLoan PublicKey newPublicKey getUserProfile
     loanAccountsOf random now).

Variable body : ApplyBody.
Variable amount : Q.
Variable key : PublicKey.
Variable profile : UserProfile.
Variable tier : LoanTier.

Hypothesis wallet_present : JS.truthy (walletAddress body) = true.
Hypothesis amount_number : loanAmount body = JS.Num amount.
Hypothesis amount_positive : (0 < amount)%Q.
Hypothesis term_supported :
  propertyTruthy (propertyOf (body_repaymentTerm body)) = true.
Hypothesis wallet_well_formed :
  newPublicKey (walletAddress body) = Some key.
Hypothesis profile_found : getUserProfile key = Some profile.
Hypothesis tier_resolved : resolveTier (tigerScore profile) = Some tier.
Hypothesis income_sufficient :
  MIN_REQUIRED_INCOME_PROOF <= getVerifiedIncome (Some profile).
Hypothesis dti_within_ceiling :
  (outstandingDebt (getOutstandingLoans (loanAccountsOf key))
   / inject_Z (getVerifiedIncome (Some profile))
   <= maxDtiRatio tier)%Q.
Hypothesis random_in_unit_interval : (0 <= random)%Q /\ (random < 1)%Q.

Lemma Qfloor_ge_iff (k : Z) (x : Q) :
  k <= Qfloor x <-> (inject_Z k <= x)%Q.
Proof.
  split.
  - intros H. apply Qle_trans with (inject_Z (Qfloor x)).
    + rewrite <- Zle_Qle. exact H.
    + apply Qfloor_le.
  - intros H. rewrite <- (Qfloor_Z k). apply Qfloor_resp_le, H.
Qed.

Lemma velocity_declined_iff :
  declinedAt VelocityExceeded (applyForLoan3 body)
  <-> loanApplicationVelocityLimit tier <= JS.Math_floor (random * 3).
Proof.
  pose proof (applyForLoan_after_income_gate PublicKey newPublicKey
                getUserProfile loanAccountsOf random now body amount key
                profile tier wallet_present amount_number amount_positive
                term_supported wallet_well_formed profile_found
                tier_resolved income_sufficient) as E.
  cbv zeta in E.
  rewrite (proj2 (gt_false_iff _ _) dti_within_ceiling) in E.
  rewrite E. unfold declinedAt.
  destruct (Z.geb_spec (JS.Math_floor (random * 3))
              (loanApplicationVelocityLimit tier)) as [Hge|Hlt].
  - split; [intros _; exact Hge | eauto].
  - split; [|lia]. intros [reason Hr].
    destruct (_ && _); discriminate.
Qed.

(** X23.  With the placeholder draw floor(3 x random), random in
    [0, 1), a request that reaches the velocity gate is never declined
    there in tier 0 (limit 3); in tier 1 (limit 2) it is declined
    exactly when random >= 2/3, and in the tiers 2 and 3 (limit 1)
    exactly when random >= 1/3 - whatever the borrower did before. *)
Theorem velocity_gate_by_tier :
  (level tier = 0 ->
   ~ declinedAt VelocityExceeded (applyForLoan3 body))
  /\ (level tier = 1 ->
      (declinedAt VelocityExceeded (applyForLoan3 body)
       <-> (2 # 3 <= random)%Q))
  /\ (2 <= level tier ->
      (declinedAt VelocityExceeded (applyForLoan3 body)
       <-> (1 # 3 <= random)%Q)).
Proof.
  destruct random_in_unit_interval as [H0 H1].
  rewrite velocity_declined_iff. unfold JS.Math_floor.
  destruct (resolveTier_cases _ _ tier_resolved)
    as [[_ Hn]|[[_ Hn]|[[_ Hn]|[_ Hn]]]];
    simpl in Hn; injection Hn as <-;
    cbn [loanApplicationVelocityLimit level];
    rewrite Qfloor_ge_iff;
    (split; [|split]); intros; try lia;
    try (change (inject_Z 3) with 3%Q);
    try (change (inject_Z 2) with 2%Q);
    try (change (inject_Z 1) with 1%Q);
    try (intros Hc; lra); split; intros; lra.
Qed.

End VelocityGate.

(* --------------------------------------------------------------------- *)
(*  The eligibility route against the apply route                         *)
(* --------------------------------------------------------------------- *)
Section EligibilityRoute.
Import Config LoanProgram Server Eligibility.

Variable PublicKey : Type.
Variable newPublicKey : JS.value -> option PublicKey.
Variable getUserProfile : PublicKey -> option UserProfile.
Variable loanAccountsOf : PublicKey -> list LoanAccount.
Variable random : Q.
Variable now : Z.

Abbreviation applyForLoan4 :=
  (Server.applyForLoan PublicKey newPublicKey getUserProfile
     loanAccountsOf random now).
Abbreviation checkEligibility' :=
  (Eligibility.checkEligibility PublicKey newPublicKey getUserProfile
     loanAccountsOf).

Lemma checkEligibility_inv (w : string) (info : Info) :
  checkEligibility' w = Success info ->
  exists key profile tier,
    newPublicKey (JS.Str w) = Some key
    /\ getUserProfile key = Some profile
    /\ tierOrFirst (tigerScore profile) = Some tier
    /\ info_tigerScore info = tigerScore profile
    /\ info_tier info = tier
    /\ info_verifiedIncome info = getVerifiedIncome (Some profile)
    /\ maxEligibleAmount info =
       maxApprovedLoanAmount tier (tigerScore profile)
         (getVerifiedIncome (Some profile))
    /\ isEligible info =
       (getVerifiedIncome (Some profile) >=? MIN_REQUIRED_INCOME_PROOF)
       && (if getVerifiedIncome (Some profile) =? 0 then false
           else Qle_bool
                  (outstandingDebt
                     (getOutstandingLoans (loanAccountsOf key))
                   / inject_Z (getVerifiedIncome (Some profile)))
                  (maxDtiRatio tier)).
Proof.
  unfold Eligibility.checkEligibility. intros H.
  destruct (newPublicKey (JS.Str w)) as [key|] eqn:Hk; [|discriminate].
  destruct (getUserProfile key) as [profile|] eqn:Hp; [|discriminate].
  destruct (tierOrFirst (tigerScore profile)) as [tier|] eqn:Ht;
    [|discriminate].
  exists key, profile, tier.
  split; [reflexivity|]. split; [exact Hp|]. split; [exact Ht|].
  remember (getVerifiedIncome (Some profile)) as income eqn:Hincome.
  remember (outstandingDebt (getOutstandingLoans (loanAccountsOf key)))
    as debt eqn:Hdebt.
  cbv zeta in H. injection H as Hinfo. rewrite <- Hinfo.
  split; [reflexivity|]. split; [reflexivity|]. split; [reflexivity|].
  split; [reflexivity|].
  unfold isEligible.
  destruct (income =? 0); reflexivity.
Qed.

(** X26.  A positive request for at most the maxEligibleAmount that the
    eligibility route reports for the wallet is never declined as too
    low by the apply route, and when it is approved it is approved in
    full. *)
Theorem eligible_amount_is_honoured
    (w : string) (info : Info) (body : ApplyBody) (amount : Q) :
  checkEligibility' w = Success info ->
  walletAddress body = JS.Str w ->
  loanAmount body = JS.Num amount ->
  (amount <= inject_Z (maxEligibleAmount info))%Q ->
  ~ declinedAt AmountTooLow (applyForLoan4 body)
  /\ (forall terms,
        applyForLoan4 body = Approved terms ->
        approvedAmount terms == amount).
Proof.
  intros Hc Hw Ha Hle.
  destruct (checkEligibility_inv w info Hc)
    as (key & profile & tier & Hk & Hp & Ht & _ & _ & _ & Hmax & _).
  assert (Hcases :
            forall r, applyForLoan4 body = r ->
                      (exists reason, r = BadRequest reason)
                      \/ r = Server.processApplication PublicKey
                               getUserProfile loanAccountsOf random now
                               body amount key).
  { intros r Hr.
    destruct (applyForLoan_inv _ _ _ _ _ _ body r Hr)
      as [Hbad|(amount' & key' & Ha' & _ & Hk' & Hr')]; [left; exact Hbad|].
    right. rewrite Ha in Ha'. injection Ha' as <-.
    rewrite Hw, Hk in Hk'. injection Hk' as <-. exact Hr'. }
  assert (Hproc :
            forall r,
              r = Server.processApplication PublicKey getUserProfile
                    loanAccountsOf random now body amount key ->
              (forall reason, r <> Declined AmountTooLow reason)
              /\ (forall terms, r = Approved terms ->
                                approvedAmount terms == amount)).
  { intros r ->. unfold Server.processApplication. rewrite Hp.
    unfold tierOrFirst in Ht.
    destruct (resolveTier (tigerScore profile)) as [t|];
      [|split; intros; discriminate].
    injection Ht as ->. cbv zeta. rewrite <- Hmax.
    apply gt_false_iff in Hle. rewrite Hle. simpl andb.
    destruct (_ <? MIN_REQUIRED_INCOME_PROOF);
      [split; intros; discriminate|].
    destruct (JS.gt _ (maxDtiRatio tier));
      [split; intros; discriminate|].
    destruct (_ >=? loanApplicationVelocityLimit tier);
      [split; intros; discriminate|].
    split; [intros; discriminate|].
    intros terms Heq. injection Heq as <-.
    cbn [approvedAmount proposeTerms]. unfold JS.Math_min.
    apply Q.min_l. apply gt_false_iff, Hle. }
  split.
  - intros [reason Hr].
    destruct (Hcases _ Hr) as [[r' Hbad]|Hproc']; [discriminate|].
    exact (proj1 (Hproc _ Hproc') reason eq_refl).
  - intros terms Hr.
    destruct (Hcases _ Hr) as [[r' Hbad]|Hproc']; [discriminate|].
    exact (proj2 (Hproc _ Hproc') terms eq_refl).
Qed.

(** X27.  For a wallet whose profile has a non-negative score, the
    eligibility route reports isEligible = false exactly when a
    validated application of that wallet is declined at the income gate
    or at the debt-to-income gate; the velocity gate and the amount floor
    are not part of isEligible. *)
Theorem isEligible_matches_gates
    (w : string) (info : Info) (body : ApplyBody) (amount : Q) :
  checkEligibility' w = Success info ->
  0 <= info_tigerScore info ->
  w <> ""%string ->
  walletAddress body = JS.Str w ->
  loanAmount body = JS.Num amount ->
  (0 < amount)%Q ->
  propertyTruthy (propertyOf (body_repaymentTerm body)) = true ->
  (isEligible info = false <->
   declinedAt InsufficientIncome (applyForLoan4 body)
   \/ declinedAt HighDebtToIncome (applyForLoan4 body)).
Proof.
  intros Hc Hs Hne Hw Ha Hpos Hterm.
  destruct (checkEligibility_inv w info Hc)
    as (key & profile & tier & Hk & Hp & Ht & Hsc & _ & _ & _ & Hel).
  rewrite Hsc in Hs.
  assert (Htruthy : JS.truthy (walletAddress body) = true).
  { rewrite Hw. simpl.
    destruct (String.eqb_spec w "") as [?|_]; [contradiction|reflexivity]. }
  rewrite <- Hw in Hk.
  rewrite (applyForLoan_valid _ _ _ _ _ _ body amount key Htruthy Ha Hpos
             Hterm Hk).
  unfold Server.processApplication, declinedAt. rewrite Hp.
  unfold tierOrFirst in Ht.
  destruct (resolveTier_total _ Hs) as [t Hres]. rewrite Hres in Ht |- *.
  injection Ht as ->. cbv zeta. rewrite Hel. clear Hel.
  set (income := getVerifiedIncome (Some profile)) in *.
  unfold MIN_REQUIRED_INCOME_PROOF.
  destruct (Z.ltb_spec income 100) as [Hlow|Hok].
  - destruct (Z.geb_spec income 100) as [?|_]; [lia|]. simpl.
    split; [eauto|reflexivity].
  - destruct (Z.geb_spec income 100) as [_|?]; [|lia].
    destruct (Z.eqb_spec income 0) as [?|_]; [lia|]. simpl andb.
    unfold JS.gt.
    destruct (Qle_bool _ (maxDtiRatio tier)); simpl.
    + split; [discriminate|].
      intros [[reason Hr]|[reason Hr]];
        (destruct (_ >=? loanApplicationVelocityLimit tier);
         [discriminate|]);
        destruct (_ && _); discriminate.
    + split; [eauto|reflexivity].
Qed.

End EligibilityRoute.

(* --------------------------------------------------------------------- *)
(*  The further properties on the reference borrowers                     *)
(* --------------------------------------------------------------------- *)
Section ReferenceOutcomes.
Import Config LoanProgram Server LoanInputs PipelineInputs.

Ltac evaluated := vm_compute; first [reflexivity | discriminate].

(** A profile without a verification hash is declined at the income
    gate; the same score with a hash is not. *)
Lemma income_gate_is_hash_check_witness :
  declinedAt InsufficientIncome
    (submitWith (Some (unverifiedProfile 250)) 0 0 (request 100))
  /\ ~ declinedAt InsufficientScore
         (submitWith (Some (unverifiedProfile 250)) 0 0 (request 100)).
Proof.
  destruct (income_gate_is_hash_check string parseKey
              (fun _ => Some (unverifiedProfile 250))
              (fun _ => [activeLoan 0]) 0%Q 1700000000000
              (request 100) 100 Inputs.demoWallet)
    as [_ H]; [evaluated..|].
  destruct (H (unverifiedProfile 250) eq_refl ltac:(simpl; lia))
    as [Hscore Hincome].
  split; [apply Hincome; reflexivity | exact Hscore].
Defined.

(** Scenario A: approved for 97 at 10 percent over 30 days. *)
Lemma approved_amount_positive_witness :
  exists terms,
    submitWith (Some (verifiedProfile 250)) 40000000 0 (request 100)
    = Approved terms
    /\ (0 < approvedAmount terms)%Q
    /\ (approvedAmount terms <= 1000)%Q.
Proof.
  eexists. split; [vm_compute; reflexivity|].
  match goal with
  | |- (0 < approvedAmount ?t)%Q /\ _ =>
      destruct (approved_amount_positive string parseKey
                  (fun _ => Some (verifiedProfile 250))
                  (fun _ => [activeLoan 40000000])
                  0%Q 1700000000000 (request 100) t)
        as (Hpos & Hcap & _)
  end; [evaluated|]. split; assumption.
Defined.


(** A request whose term is "constructor" is approved without any
    repayment figure. *)
Lemma inherited_term_has_no_figures_witness :
  exists terms,
    submitWith (Some (verifiedProfile 700)) 0 0
      (requestWithTerm 120 "constructor") = Approved terms
    /\ repaymentDays terms = None
    /\ interestAmount terms = None
    /\ totalRepaymentAmount terms = None.
Proof.
  eexists. split; [vm_compute; reflexivity|].
  split; [reflexivity|].
  match goal with
  | |- interestAmount ?t = None /\ _ =>
      destruct (inherited_term_has_no_figures string parseKey
                  (fun _ => Some (verifiedProfile 700))
                  (fun _ => [activeLoan 0])
                  0%Q 1700000000000
                  (requestWithTerm 120 "constructor") t)
        as (_ & Hnone)
  end; [evaluated|].
  destruct (Hnone eq_refl) as (Hi & Ht & _). split; assumption.
Defined.

Lemma amount_too_low_only_for_small_scores_witness :
  declinedAt AmountTooLow (LoanInputs.submit 10 0 100000)
  /\ exists key profile,
       parseKey (walletAddress (request 100000)) = Some key
       /\ Some (verifiedProfile 10) = Some profile
       /\ humanVerifiedVcHash profile <> None
       /\ 0 <= tigerScore profile <= 12.
Proof.
  assert (Hd : declinedAt AmountTooLow (LoanInputs.submit 10 0 100000))
    by (eexists; vm_compute; reflexivity).
  split; [exact Hd|].
  exact (amount_too_low_only_for_small_scores string parseKey
           (fun _ => Some (verifiedProfile 10))
           (fun _ => [activeLoan 0]) 0%Q 1700000000000
           (request 100000) Hd).
Defined.

(** A tier-2 borrower with the draw 1/2 is declined for velocity. *)
Lemma velocity_gate_by_tier_witness :
  declinedAt VelocityExceeded
    (submitWith (Some (verifiedProfile 400)) 0 (1 # 2) (request 120)).
Proof.
  destruct (velocity_gate_by_tier string parseKey
              (fun _ => Some (verifiedProfile 400))
              (fun _ => [activeLoan 0]) (1 # 2) 1700000000000
              (request 120) 120 Inputs.demoWallet
              (verifiedProfile 400) tier2)
    as (_ & _ & H); [evaluated..| |].
  - split; evaluated.
  - apply H; evaluated.
Defined.

(** The eligibility route reports 97 for score 250 with a debt of 40;
    a request for 97 is then approved for 97. *)
Lemma eligible_amount_is_honoured_witness :
  exists info,
    checkWith (Some (verifiedProfile 250)) 40000000
    = Eligibility.Success info
    /\ Eligibility.maxEligibleAmount info = 97
    /\ ~ declinedAt AmountTooLow
           (submitWith (Some (verifiedProfile 250)) 40000000 0 (request 97)).
Proof.
  assert (E : exists info,
             checkWith (Some (verifiedProfile 250)) 40000000
             = Eligibility.Success info
             /\ Eligibility.maxEligibleAmount info = 97)
    by (eexists; split; [vm_compute; reflexivity | reflexivity]).
  destruct E as (info & E & Hmax).
  exists info. split; [exact E|]. split; [exact Hmax|].
  apply (eligible_amount_is_honoured string parseKey
           (fun _ => Some (verifiedProfile 250))
           (fun _ => [activeLoan 40000000])
           0%Q 1700000000000 Inputs.demoWallet info
           (request 97) 97 E eq_refl eq_refl).
  rewrite Hmax. vm_compute. discriminate.
Defined.

Lemma isEligible_matches_gates_witness :
  exists info,
    checkWith (Some (verifiedProfile 400)) 200000000
    = Eligibility.Success info
    /\ Eligibility.isEligible info = false
    /\ (declinedAt InsufficientIncome (LoanInputs.submit 400 200000000 100)
        \/ declinedAt HighDebtToIncome
             (LoanInputs.submit 400 200000000 100)).
Proof.
  assert (E : exists info,
             checkWith (Some (verifiedProfile 400)) 200000000
             = Eligibility.Success info
             /\ Eligibility.isEligible info = false
             /\ Eligibility.info_tigerScore info = 400)
    by (eexists; split; [vm_compute; reflexivity | split; reflexivity]).
  destruct E as (info & E & Hel & Hs).
  exists info. split; [exact E|]. split; [exact Hel|].
  apply (isEligible_matches_gates string parseKey
           (fun _ => Some (verifiedProfile 400))
           (fun _ => [activeLoan 200000000])
           0%Q 1700000000000 Inputs.demoWallet info
           (request 100) 100 E); try reflexivity; try exact Hel.
  - rewrite Hs. lia.
  - discriminate.
Defined.

Lemma scoreBasedLimit_double_witness :
  Double.floorOfProduct 250 Double.lit_0_8 = Some (scoreBasedLimit 250)
  /\ scoreBasedLimit 250 = 200.
Proof.
  split; [apply scoreBasedLimit_double; lia | reflexivity].
Defined.

Lemma incomeBasedLimit_double_witness :
  Double.floorOfProduct 325 Double.lit_0_3 = Some (incomeBasedLimit 325)
  /\ incomeBasedLimit 325 = 97.
Proof.
  split; [apply incomeBasedLimit_double; lia | reflexivity].
Defined.

End ReferenceOutcomes.
